(** * snmp_thermometer.ino: a shallow embedding and its properties

    The firmware of the ESP8266 SNMP thermometer is a single-threaded sketch
    over a handful of global variables.  Each part of the sketch is embedded
    as a function over an explicit record of those globals; calls into the
    Arduino core and the libraries (Serial, the one-wire driver, the WiFi
    client, EEPROM) appear as events of a trace or as inputs. *)

From Stdlib Require Import ZArith Lia Bool List String Ascii.
From Stdlib Require Import Floats.SpecFloat.
From stdpp Require Import base list.
Import ListNotations.

Local Open Scope Z_scope.

(** ** Machine integers *)

(** [int] on the ESP8266 is 32 bits, two's complement. *)
Definition INT_MIN : Z := - 2 ^ 31.
Definition INT_MAX : Z := 2 ^ 31 - 1.

Definition int_wrap (z : Z) : Z := (z + 2 ^ 31) mod 2 ^ 32 - 2 ^ 31.

(** [unsigned long] is 32 bits as well. *)
Definition ulong_wrap (z : Z) : Z := z mod 2 ^ 32.

(** ** Single precision floats *)

(** [float] is IEEE 754 binary32: 24 bits of precision, exponent bound 128. *)
Definition float32 : Type := spec_float.

Definition f32_prec : Z := 24.
Definition f32_emax : Z := 128.

Definition f32_valid (x : float32) : bool := valid_binary f32_prec f32_emax x.
Definition f32_mul (x y : float32) : float32 := SFmul f32_prec f32_emax x y.
Definition f32_eqb (x y : float32) : bool := SFeqb x y.

(** Conversion of an [int] to [float], round to nearest even. *)
Definition f32_of_int (z : Z) : float32 :=
  binary_normalize f32_prec f32_emax z 0 false.

(** The value of a finite float as a fraction [num / 2 ^ scale]. *)
Definition f32_num (x : float32) : Z :=
  match x with
  | S754_finite s m e => cond_Zopp s (Z.pos m * 2 ^ Z.max e 0)
  | _ => 0
  end.

Definition f32_den (x : float32) : Z :=
  match x with
  | S754_finite _ _ e => 2 ^ Z.max (- e) 0
  | _ => 1
  end.

(** The C conversion [(int) x]: the fractional part is discarded; the
    behaviour is undefined when the truncated value is not an [int]. *)
Definition f32_to_int_defined (x : float32) : option Z :=
  match x with
  | S754_zero _ => Some 0
  | S754_finite s m e =>
      let z := cond_Zopp s (Z.shiftl (Z.pos m) e) in
      if (INT_MIN <=? z) && (z <=? INT_MAX) then Some z else None
  | S754_infinity _ | S754_nan => None
  end.

(** What lies outside the sketch: the sentinel of DallasTemperature.h and the
    result the platform gives for a conversion C leaves undefined. *)
Class Platform := {
  DEVICE_DISCONNECTED_C : float32;
  f32_to_int_undefined : float32 -> Z
}.

Definition f32_to_int `{Platform} (x : float32) : Z :=
  match f32_to_int_defined x with
  | Some z => z
  | None => f32_to_int_undefined x
  end.

(** ** Constants of the sketch *)

Definition TICK_MS : Z := 100.
Definition SENSOR_TICKS : Z := 50.
Definition LED_TICKS : Z := 2.
Definition MAX_SENSORS : Z := 4.
Definition ADDR_LEN : Z := 8.
Definition PRECISION : Z := 9.
Definition EEPROM_VALID : Z := 0x2367.

(** ** The sensor store and the scheduler *)

Module Sensors.

Record sensorType := mkSensor {
  addr : list Z;
  temperature : Z
}.

Inductive level := LOW | HIGH.

Inductive event :=
| Serial_print (s : string)
| Serial_println (s : string)
| Serial_print_int (n : Z)
| Serial_print_hex (n : Z)
| Serial_print_float (t : float32)
| digitalWrite_LED_BUILTIN (l : level)
| dallas_begin
| dallas_getAddress (c : Z)
| dallas_setResolution (a : list Z) (bits : Z)
| dallas_requestTemperaturesByAddress (a : list Z)
| dallas_getTempC (a : list Z).

(** The globals the scheduler works on, and the trace of library calls. *)
Record state := mkState {
  sensors : list sensorType;
  numSensors : Z;
  currentSensor : Z;
  ledTicks : Z;
  sensorTicks : Z;
  trace : list event
}.

Definition no_addr : list Z := [0; 0; 0; 0; 0; 0; 0; 0].

(** The initialiser of [sensors] and the zeroed scalar globals. *)
Definition boot : state :=
  {| sensors := [ mkSensor no_addr 1111; mkSensor no_addr 2222;
                  mkSensor no_addr 3333; mkSensor no_addr 4444 ];
     numSensors := 0; currentSensor := 0; ledTicks := 0; sensorTicks := 0;
     trace := [] |}.

Definition set_sensors (v : list sensorType) (st : state) : state :=
  mkState v (numSensors st) (currentSensor st) (ledTicks st) (sensorTicks st) (trace st).
Definition set_numSensors (v : Z) (st : state) : state :=
  mkState (sensors st) v (currentSensor st) (ledTicks st) (sensorTicks st) (trace st).
Definition set_currentSensor (v : Z) (st : state) : state :=
  mkState (sensors st) (numSensors st) v (ledTicks st) (sensorTicks st) (trace st).
Definition set_ledTicks (v : Z) (st : state) : state :=
  mkState (sensors st) (numSensors st) (currentSensor st) v (sensorTicks st) (trace st).
Definition set_sensorTicks (v : Z) (st : state) : state :=
  mkState (sensors st) (numSensors st) (currentSensor st) (ledTicks st) v (trace st).
Definition emit (e : event) (st : state) : state :=
  mkState (sensors st) (numSensors st) (currentSensor st) (ledTicks st) (sensorTicks st)
          (trace st ++ [e]).

(** [sensors[i]]: an index outside the array is undefined in C; the model
    reads nothing and writes nothing there. *)
Definition sensor_at (l : list sensorType) (i : Z) : option sensorType :=
  if 0 <=? i then l !! Z.to_nat i else None.

Definition sensor_addr (l : list sensorType) (i : Z) : list Z :=
  match sensor_at l i with Some s => addr s | None => [] end.

Definition store_temperature (i v : Z) (l : list sensorType) : list sensorType :=
  match sensor_at l i with
  | Some s => <[Z.to_nat i := mkSensor (addr s) v]> l
  | None => l
  end.

Definition store_addr (i : Z) (a : list Z) (l : list sensorType) : list sensorType :=
  match sensor_at l i with
  | Some s => <[Z.to_nat i := mkSensor a (temperature s)]> l
  | None => l
  end.

Definition ledOff (st : state) : state := emit (digitalWrite_LED_BUILTIN HIGH) st.

Definition ledOn (ticks : Z) (st : state) : state :=
  emit (digitalWrite_LED_BUILTIN LOW) (set_ledTicks ticks st).

Definition processLED (st : state) : state :=
  if ledTicks st =? 0 then st
  else
    let st := set_ledTicks (int_wrap (ledTicks st - 1)) st in
    if ledTicks st =? 0 then ledOff st else st.

(** [printSensorAddress]: eight bytes in hex, and whether the family code
    is that of a DS18B20. *)
Definition printSensorAddress_byte (b : Z) (st : state) : state :=
  let st := if b <? 16 then emit (Serial_print "0") st else st in
  let st := emit (Serial_print_hex b) st in
  emit (Serial_print " ") st.

Definition printSensorAddress (devAddr : list Z) (st : state) : Z * state :=
  let isDs18b20 := if nth 0 devAddr 0 =? 0x28 then 1 else 0 in
  (isDs18b20, fold_left (fun st b => printSensorAddress_byte b st) (take 8 devAddr) st).

(** The loop of [initSensors] over [c .. numSensors - 1]; [devices] are the
    addresses the bus enumeration delivers, in order. *)
Fixpoint initSensors_loop (devices : list (list Z)) (c : Z) (fuel : nat) (st : state) : state :=
  match fuel with
  | O => st
  | S fuel =>
      if c <? numSensors st then
        let devAddr := nth (Z.to_nat c) devices no_addr in
        let st := emit (dallas_getAddress c) st in
        let st := set_sensors (store_addr c devAddr (sensors st)) st in
        let st := emit (Serial_print "    ") st in
        let st := emit (Serial_print_int (c + 1)) st in
        let st := emit (Serial_print " - ") st in
        let '(isDs18b20, st) := printSensorAddress devAddr st in
        let st := if isDs18b20 =? 1
                  then emit (Serial_println "  (DS18B20)") st
                  else emit (Serial_println "  (Unknown device type)") st in
        let st := emit (dallas_setResolution devAddr PRECISION) st in
        initSensors_loop devices (c + 1) fuel st
      else st
  end.

(** [getDeviceCount] returns a [uint8_t]. *)
Definition getDeviceCount (devices : list (list Z)) : Z :=
  Z.of_nat (length devices) mod 256.

Definition initSensors (devices : list (list Z)) (st : state) : state :=
  let st := set_sensorTicks SENSOR_TICKS st in
  let st := set_currentSensor 0 st in
  let st := emit dallas_begin st in
  let st := set_numSensors (getDeviceCount devices) st in
  let st := emit (Serial_println "Locating temperature sensors... ") st in
  let st := emit (Serial_print "  Support for up to ") st in
  let st := emit (Serial_print_int MAX_SENSORS) st in
  let st := emit (Serial_println " devices") st in
  let st := emit (Serial_print "  Found ") st in
  let st := emit (Serial_print_int (numSensors st)) st in
  let st := emit (Serial_println " devices") st in
  let st :=
    if MAX_SENSORS <? numSensors st then
      let st := set_numSensors MAX_SENSORS st in
      let st := emit (Serial_print "  Using only first ") st in
      let st := emit (Serial_print_int (numSensors st)) st in
      emit (Serial_println " devices found") st
    else st in
  initSensors_loop devices 0 (Z.to_nat (numSensors st)) st.

Section Scheduler.
Context `{Platform}.

Definition f32_ten : float32 := f32_of_int 10.

(** One call of [processSensors]; [t] is what [getTempC] returns if this
    call reaches it. *)
Definition processSensors (t : float32) (st : state) : state :=
  let st := set_sensorTicks (int_wrap (sensorTicks st - 1)) st in
  if sensorTicks st =? 0 then
    let st := set_sensorTicks SENSOR_TICKS st in
    let st := ledOn LED_TICKS st in
    if numSensors st =? 0 then
      emit (Serial_println "No temperature sensors!!!!") st
    else
      let st := if currentSensor st =? 0
                then emit (Serial_println "New polling cycle") st else st in
      let a := sensor_addr (sensors st) (currentSensor st) in
      let st := emit (dallas_requestTemperaturesByAddress a) st in
      let st := emit (Serial_print "  Sensor ") st in
      let st := emit (Serial_print_int (int_wrap (currentSensor st + 1))) st in
      let st := emit (Serial_print " - ") st in
      let st := emit (dallas_getTempC a) st in
      let st :=
        if f32_eqb t DEVICE_DISCONNECTED_C then
          emit (Serial_println "Error reading temperature") st
        else
          let st := emit (Serial_print_float t) st in
          let st := emit (Serial_println " C") st in
          set_sensors (store_temperature (currentSensor st)
                         (f32_to_int (f32_mul t f32_ten)) (sensors st)) st in
      let st := set_currentSensor (int_wrap (currentSensor st + 1)) st in
      if currentSensor st =? numSensors st then
        emit (Serial_println "") (set_currentSensor 0 st)
      else st
  else st.

(** The store as the pass that ends a cycle leaves it, for a given answer:
    the assignment in the [else] branch of [processSensors]. *)
Definition stored (t : float32) (st : state) : list sensorType :=
  if f32_eqb t DEVICE_DISCONNECTED_C then sensors st
  else store_temperature (currentSensor st) (f32_to_int (f32_mul t f32_ten)) (sensors st).

(** The scheduler's share of one pass of [loop]. *)
Definition loop (t : float32) (st : state) : state :=
  processLED (processSensors t st).

(** [ts] holds one driver answer per pass. *)
Definition run (ts : list float32) (st : state) : state :=
  fold_left (fun st t => loop t st) ts st.

End Scheduler.

(** The addresses handed to [getTempC], in call order. *)
Definition reads (tr : list event) : list (list Z) :=
  omap (fun e => match e with dallas_getTempC a => Some a | _ => None end) tr.

(** The lines written to the serial port. *)
Definition printed (tr : list event) : list string :=
  omap (fun e => match e with Serial_println s => Some s | _ => None end) tr.

Definition led_writes (tr : list event) : list level :=
  omap (fun e => match e with digitalWrite_LED_BUILTIN l => Some l | _ => None end) tr.

End Sensors.

(** ** The management object tree *)

Module Mib.

Inductive mib_type := OCTET_STRING | TIMETICKS | INTEGER.
Inductive mib_access := RD_ONLY | RD_WR.

(** The accessor functions a node can carry. *)
Inductive callback := cb_getUptime | cb_getTemperature | cb_getSensorAddress.

(** The buffers an octet-string node can point at. *)
Inductive buffer := buf_sysDescr | buf_sysLocation | buf_sensor_addr (c : Z).

(** The union [u] of a node. *)
Inductive mib_u := u_intval (z : Z) | u_octetstring (p : buffer).

Record MIB := mkMIB {
  oid : list Z;
  type : mib_type;
  access : mib_access;
  u : mib_u;
  dataLen : Z;
  get : option callback
}.

(** The agent's prefixes: [B.] is mib-2, [P.] is the private enterprises arc. *)
Definition B : list Z := [1; 3; 6; 1; 2; 1].
Definition P : list Z := [1; 3; 6; 1; 4; 1].
Definition ENTERPRISE_OID : list Z := B ++ [56234].
Definition SENSOR_OID : list Z := P ++ [56234; 1; 2; 1].

Definition sysDescr : string := "Ed's ESP8266 thermometer".
Definition sysLocation : string := "Isle of Man".

Definition miblistadd (tree : list MIB) (o : list Z) (t : mib_type) (a : mib_access)
    (v : mib_u) (len : Z) : list MIB :=
  tree ++ [mkMIB o t a v len None].

(** [mibsetvalue] and [mibsetcallback] act on the node [miblistadd] has just
    appended. *)
Definition on_last (f : MIB -> MIB) (tree : list MIB) : list MIB :=
  match reverse tree with
  | [] => []
  | n :: r => reverse (f n :: r)
  end.

Definition mibsetvalue_int (v : Z) (tree : list MIB) : list MIB :=
  on_last (fun n => mkMIB (oid n) (type n) (access n) (u_intval v) (dataLen n) (get n)) tree.

Definition mibsetcallback (cb : callback) (tree : list MIB) : list MIB :=
  on_last (fun n => mkMIB (oid n) (type n) (access n) (u n) (dataLen n) (Some cb)) tree.

(** The body of the loop of [initMibTree] for sensor [c]. *)
Definition initMibTree_sensor (tree : list MIB) (c : Z) : list MIB :=
  let oidIndex := int_wrap (c + 1) in
  let tree := miblistadd tree (SENSOR_OID ++ [2; oidIndex]) OCTET_STRING RD_ONLY
                (u_octetstring (buf_sensor_addr c)) ADDR_LEN in
  let tree := mibsetcallback cb_getSensorAddress tree in
  let tree := miblistadd tree (SENSOR_OID ++ [3; oidIndex]) INTEGER RD_ONLY
                (u_intval 0) 0 in
  let tree := mibsetvalue_int 0 tree in
  mibsetcallback cb_getTemperature tree.

Definition initMibTree (numSensors : Z) : list MIB :=
  let tree := miblistadd [] (B ++ [1; 1; 0]) OCTET_STRING RD_ONLY
                (u_octetstring buf_sysDescr) (Z.of_nat (String.length sysDescr)) in
  let tree := miblistadd tree (B ++ [1; 3; 0]) TIMETICKS RD_ONLY (u_intval 0) 0 in
  let tree := mibsetvalue_int 0 tree in
  let tree := mibsetcallback cb_getUptime tree in
  let tree := miblistadd tree (B ++ [1; 6; 0]) OCTET_STRING RD_ONLY
                (u_octetstring buf_sysLocation) (Z.of_nat (String.length sysLocation)) in
  fold_left initMibTree_sensor (seqZ 0 numSensors) tree.

Definition set_u (v : mib_u) (n : MIB) : MIB :=
  mkMIB (oid n) (type n) (access n) v (dataLen n) (get n).

(** [thisMib -> oid.array[thisMib -> oid.len - 1]]. *)
Definition oid_last (n : MIB) : option Z := last (oid n).

(** The accessors.  [None] stands for an access outside [oid.array] or
    outside [sensors], which C leaves undefined; otherwise the node comes
    back updated and the result is SUCCESS. *)
Definition getUptime (millis : Z) (thisMib : MIB) : option MIB :=
  Some (set_u (u_intval (int_wrap (ulong_wrap millis / 10))) thisMib).

Definition getTemperature (sensors : list Sensors.sensorType) (thisMib : MIB) : option MIB :=
  match oid_last thisMib with
  | None => None
  | Some k =>
      let c := int_wrap (k - 1) in
      match Sensors.sensor_at sensors c with
      | Some s => Some (set_u (u_intval (Sensors.temperature s)) thisMib)
      | None => None
      end
  end.

Definition getSensorAddress (sensors : list Sensors.sensorType) (thisMib : MIB) : option MIB :=
  match oid_last thisMib with
  | None => None
  | Some k =>
      let c := int_wrap (k - 1) in
      match Sensors.sensor_at sensors c with
      | Some s => Some (set_u (u_octetstring (buf_sensor_addr c)) thisMib)
      | None => None
      end
  end.

Definition invoke (cb : callback) (millis : Z) (sensors : list Sensors.sensorType)
    (n : MIB) : option MIB :=
  match cb with
  | cb_getUptime => getUptime millis n
  | cb_getTemperature => getTemperature sensors n
  | cb_getSensorAddress => getSensorAddress sensors n
  end.

Inductive resolved :=
| NotFound
| Found (t : mib_type) (v : mib_u)
| Undefined.

Definition oid_eqb (a b : list Z) : bool := bool_decide (a = b).

(** Modelled from the spec: the lookup of the uSNMP agent, which is not part
    of the sketch.  It finds the node registered under the identifier, runs
    the node's accessor if it has one, and answers with the node's type and
    value; an unknown identifier is not found. *)
Definition resolve (tree : list MIB) (millis : Z) (sensors : list Sensors.sensorType)
    (id : list Z) : resolved :=
  match List.find (fun n => oid_eqb (oid n) id) tree with
  | None => NotFound
  | Some n =>
      match get n with
      | None => Found (type n) (u n)
      | Some cb =>
          match invoke cb millis sensors n with
          | Some n' => Found (type n') (u n')
          | None => Undefined
          end
      end
  end.

End Mib.

(** ** The configuration record and its persistence *)

Module Config.

(** [eepromType] as the ESP8266 lays it out (little endian, [int] of four
    bytes aligned on four): [eepromSize] at 0, [staSSID] at 4, [staPSK] at
    68, [roCommunity] at 132, [dataValid] at 196, two bytes of padding. *)
Definition off_eepromSize : nat := 0.
Definition off_staSSID : nat := 4.
Definition off_staPSK : nat := 68.
Definition off_roCommunity : nat := 132.
Definition off_dataValid : nat := 196.
Definition sizeof_eepromData : Z := 200.

Definition bytes_of_string (s : string) : list Z :=
  map (fun a => Z.of_nat (nat_of_ascii a)) (list_ascii_of_string s).

Definition DEFAULT_SSID : list Z := bytes_of_string "ballacurmudgeon".
Definition DEFAULT_PSK : list Z := bytes_of_string "scaramanga".
Definition RO_COMMUNITY : list Z := bytes_of_string "public".

(** Reading and writing the object representation. *)
Definition byte_at (m : list Z) (i : nat) : Z := default 0 (m !! i).

Definition peek_ushort (m : list Z) (off : nat) : Z :=
  byte_at m off + 256 * byte_at m (off + 1).

Definition peek_int (m : list Z) (off : nat) : Z :=
  int_wrap (byte_at m off + 256 * byte_at m (off + 1)
            + 65536 * byte_at m (off + 2) + 16777216 * byte_at m (off + 3)).

Definition poke (off : nat) (bs : list Z) (m : list Z) : list Z :=
  list_inserts off bs m.

Definition poke_ushort (off : nat) (v : Z) (m : list Z) : list Z :=
  poke off [v mod 256; (v / 256) mod 256] m.

Definition poke_int (off : nat) (v : Z) (m : list Z) : list Z :=
  poke off [v mod 256; (v / 256) mod 256; (v / 65536) mod 256; (v / 16777216) mod 256] m.

(** The string that starts at [off]: the bytes up to the first NUL. *)
Fixpoint cstr (m : list Z) : list Z :=
  match m with
  | [] => []
  | c :: m => if c =? 0 then [] else c :: cstr m
  end.

Definition cstr_at (m : list Z) (off : nat) : list Z := cstr (drop off m).

(** [strcpy] into the record at [off]: the bytes of [src] and a NUL. *)
Definition strcpy (off : nat) (src : list Z) (m : list Z) : list Z :=
  poke off (src ++ [0]) m.

(** The EEPROM library: [begin] copies the flash sector into a buffer,
    [read] and [write] act on the buffer and ignore addresses outside it,
    [commit] copies the buffer back. *)
Record eeprom := mkEeprom {
  flash : Z -> Z;
  data : list Z;
  commits : nat
}.

Definition EEPROM_begin (size : Z) (e : eeprom) : eeprom :=
  mkEeprom (flash e) (map (fun a => flash e a mod 256) (seqZ 0 size)) (commits e).

Definition EEPROM_read (e : eeprom) (address : Z) : Z :=
  if (0 <=? address) && (address <? Z.of_nat (length (data e)))
  then byte_at (data e) (Z.to_nat address) else 0.

Definition EEPROM_write (address : Z) (v : Z) (e : eeprom) : eeprom :=
  if (0 <=? address) && (address <? Z.of_nat (length (data e)))
  then mkEeprom (flash e) (<[Z.to_nat address := v]> (data e)) (commits e)
  else e.

Definition EEPROM_commit (e : eeprom) : eeprom :=
  mkEeprom (fun a => if (0 <=? a) && (a <? Z.of_nat (length (data e)))
                     then byte_at (data e) (Z.to_nat a) else flash e a)
           (data e) (S (commits e)).

Record state := mkState {
  eepromData : list Z;
  EEPROM : eeprom;
  serial : list string
}.

Definition println (s : string) (st : state) : state :=
  mkState (eepromData st) (EEPROM st) (serial st ++ [s]).
Definition set_eepromData (d : list Z) (st : state) : state :=
  mkState d (EEPROM st) (serial st).
Definition set_EEPROM (e : eeprom) (st : state) : state :=
  mkState (eepromData st) e (serial st).

(** The globals are zeroed before [setup] runs. *)
Definition boot (f : Z -> Z) : state :=
  mkState (replicate (Z.to_nat sizeof_eepromData) 0) (mkEeprom f [] 0) [].

(** The copy loop of [getConfig], from [eepromAddr] on. *)
Fixpoint getConfig_loop (eepromSize eepromAddr : Z) (fuel : nat) (st : state) : state :=
  match fuel with
  | O => st
  | S fuel =>
      if eepromAddr <? eepromSize then
        let st := set_eepromData
                    (<[Z.to_nat eepromAddr := EEPROM_read (EEPROM st) eepromAddr]> (eepromData st)) st in
        getConfig_loop eepromSize (eepromAddr + 1) fuel st
      else st
  end.

(** The size that [getConfig] and [saveConfig] print between two pieces of
    text is left out of the serial log. *)
Definition getConfig (st : state) : state :=
  let eepromSize := sizeof_eepromData in
  let st := set_EEPROM (EEPROM_begin eepromSize (EEPROM st)) st in
  let st := println "Reading bytes from EEPROM" st in
  let st := getConfig_loop eepromSize 0 (Z.to_nat eepromSize) st in
  if (peek_int (eepromData st) off_eepromSize =? eepromSize)
     && (peek_ushort (eepromData st) off_dataValid =? EEPROM_VALID)
  then println "  Found valid configuration" st
  else
    let st := println "  No configuration found in EEPROM" st in
    let st := println "  Using default configuration" st in
    let st := set_eepromData (poke_int off_eepromSize eepromSize (eepromData st)) st in
    let st := set_eepromData (strcpy off_staSSID DEFAULT_SSID (eepromData st)) st in
    let st := set_eepromData (strcpy off_staPSK DEFAULT_PSK (eepromData st)) st in
    let st := set_eepromData (strcpy off_roCommunity RO_COMMUNITY (eepromData st)) st in
    set_eepromData (poke_ushort off_dataValid EEPROM_VALID (eepromData st)) st.

(** The copy loop of [saveConfig]. *)
Fixpoint saveConfig_loop (eepromAddr : Z) (fuel : nat) (st : state) : state :=
  match fuel with
  | O => st
  | S fuel =>
      if eepromAddr <? peek_int (eepromData st) off_eepromSize then
        let st := set_EEPROM
                    (EEPROM_write eepromAddr (byte_at (eepromData st) (Z.to_nat eepromAddr))
                       (EEPROM st)) st in
        saveConfig_loop (eepromAddr + 1) fuel st
      else st
  end.

Definition saveConfig (st : state) : state :=
  let st := println "Writing bytes to EEPROM" st in
  let st := saveConfig_loop 0 (Z.to_nat (peek_int (eepromData st) off_eepromSize)) st in
  set_EEPROM (EEPROM_commit (EEPROM st)) st.

(** The three strings of the record. *)
Definition staSSID (st : state) : list Z := cstr_at (eepromData st) off_staSSID.
Definition staPSK (st : state) : list Z := cstr_at (eepromData st) off_staPSK.
Definition roCommunity (st : state) : list Z := cstr_at (eepromData st) off_roCommunity.

(** The image of the record that [EEPROM.begin] finds in the flash. *)
Definition stored_image (f : Z -> Z) : list Z :=
  map (fun a => f a mod 256) (seqZ 0 sizeof_eepromData).

(** The stored record has the size of [eepromType] in its first field and
    the marker in its last. *)
Definition stored_valid (f : Z -> Z) : bool :=
  (peek_int (stored_image f) off_eepromSize =? sizeof_eepromData)
  && (peek_ushort (stored_image f) off_dataValid =? EEPROM_VALID).

End Config.

(** ** The line reader and the request handlers *)

Module Http.

Import Config.

(** What C leaves undefined and this part of the sketch can reach: a store
    outside an array, and a library call on a null pointer. *)
Inductive fault :=
| OutOfBounds (array : string) (index : Z)
| NullPointer (callee : string).

Inductive result (A : Type) :=
| Ok (a : A)
| Fault (f : fault).
Arguments Ok {A} a.
Arguments Fault {A} f.

Inductive event :=
| Serial_text (s : string)
| Serial_bytes (b : list Z)
| Serial_int (n : Z)
| Client_text (s : string)
| Client_bytes (b : list Z)
| Client_mac
| Client_rssi
| Client_int (n : Z)
| Client_flush
| Client_stop.

(** A [char *] of this part points into [httpRequest] or is null. *)
Definition ptr : Type := option nat.

Record state := mkState {
  config : Config.state;
  httpRequest : list Z;
  httpParams : list ptr;
  strtok_last : ptr;
  trace : list event
}.

Definition sizeof_httpRequest : nat := 255.
Definition sizeof_httpParams : nat := 16.

Definition boot (f : Z -> Z) : state :=
  mkState (Config.boot f) (replicate sizeof_httpRequest 0)
          (replicate sizeof_httpParams None) None [].

(** The globals when [setup] has called [getConfig], which it does before
    it starts either server; [f] is the content of the flash. *)
Definition configured (f : Z -> Z) : state :=
  mkState (Config.getConfig (Config.boot f)) (replicate sizeof_httpRequest 0)
          (replicate sizeof_httpParams None) None [].

(** State and fault passing. *)
Definition M (A : Type) : Type := state -> result (A * state).

Definition ret {A} (a : A) : M A := fun st => Ok (a, st).
Definition bind {A B} (m : M A) (k : A -> M B) : M B :=
  fun st => match m st with
            | Ok (a, st') => k a st'
            | Fault f => Fault f
            end.
Definition fail {A} (f : fault) : M A := fun _ => Fault f.
Definition gets {A} (f : state -> A) : M A := fun st => Ok (f st, st).
Definition modify (f : state -> state) : M unit := fun st => Ok (tt, f st).

Notation "x <- m ;; k" := (bind m (fun x => k))
  (at level 100, m at next level, right associativity).
Notation "m ;;; k" := (bind m (fun _ => k))
  (at level 100, right associativity).

Definition emit (e : event) : M unit :=
  modify (fun st => mkState (config st) (httpRequest st) (httpParams st) (strtok_last st)
                            (trace st ++ [e])).
Definition set_config (c : Config.state) : M unit :=
  modify (fun st => mkState c (httpRequest st) (httpParams st) (strtok_last st) (trace st)).
Definition set_httpRequest (b : list Z) : M unit :=
  modify (fun st => mkState (config st) b (httpParams st) (strtok_last st) (trace st)).
Definition set_httpParams (p : list ptr) : M unit :=
  modify (fun st => mkState (config st) (httpRequest st) p (strtok_last st) (trace st)).
Definition set_strtok_last (p : ptr) : M unit :=
  modify (fun st => mkState (config st) (httpRequest st) (httpParams st) p (trace st)).

(** *** The C library on [httpRequest] *)

Definition is_delim (delim : list Z) (c : Z) : bool := bool_decide (c ∈ delim).

(** Length of the leading run of delimiters, and of the leading run of
    bytes that are neither a delimiter nor NUL. *)
Fixpoint strspn (s : list Z) (delim : list Z) : nat :=
  match s with
  | c :: s => if is_delim delim c then S (strspn s delim) else O
  | [] => O
  end.

Fixpoint strcspn (s : list Z) (delim : list Z) : nat :=
  match s with
  | c :: s => if (c =? 0) || is_delim delim c then O else S (strcspn s delim)
  | [] => O
  end.

(** [strtok]: a null [s] continues after the previous token; the delimiter
    that ends the token is overwritten with NUL. *)
Definition strtok (s : ptr) (delim : list Z) : M ptr :=
  last <- gets strtok_last ;;
  match (match s with Some p => Some p | None => last end) with
  | None => ret None
  | Some p =>
      buf <- gets httpRequest ;;
      let p := (p + strspn (drop p buf) delim)%nat in
      match buf !! p with
      | None | Some 0 => set_strtok_last None ;;; ret None
      | Some _ =>
          let q := (p + strcspn (drop p buf) delim)%nat in
          match buf !! q with
          | None | Some 0 => set_strtok_last None ;;; ret (Some p)
          | Some _ =>
              set_httpRequest (<[q := 0]> buf) ;;;
              set_strtok_last (Some (S q)) ;;;
              ret (Some p)
          end
      end
  end.

(** The string a pointer designates. *)
Definition deref (callee : string) (p : ptr) : M (list Z) :=
  match p with
  | None => fail (NullPointer callee)
  | Some p => buf <- gets httpRequest ;; ret (cstr_at buf p)
  end.

(** [strcmp (name, p) == 0] for a string literal [name]. *)
Definition strcmp_eq (name : string) (p : ptr) : M bool :=
  s <- deref "strcmp" p ;;
  ret (bool_decide (bytes_of_string name = s)).

(** [strncmp (httpRequest, lit, n) == 0] for a literal of [n] bytes. *)
Definition strncmp_eq (buf : list Z) (lit : string) (n : nat) : bool :=
  bool_decide (take n (cstr buf) = take n (bytes_of_string lit)).

(** [print] of a [char *] writes nothing for a null pointer. *)
Definition print_ptr (mk : list Z -> event) (p : ptr) : M unit :=
  match p with
  | None => ret tt
  | Some p => buf <- gets httpRequest ;; emit (mk (cstr_at buf p))
  end.

(** [strcpy] into a 64 byte field of [eepromData]. *)
Definition strcpy_field (field : string) (off : nat) (src : ptr) : M unit :=
  s <- deref "strcpy" src ;;
  if (64 <=? length s)%nat then fail (OutOfBounds field 64)
  else
    cfg <- gets config ;;
    set_config (Config.set_eepromData (Config.strcpy off s (eepromData cfg)) cfg).

(** *** Pages and handlers of the configuration mode *)

(** What the pages send is kept as one event per [print] or [println];
    the markup of the two forms and of the status table is shortened, and
    attribute quotes are left out. *)

Definition httpHeader : M unit :=
  emit (Client_text "HTTP/1.1 200 OK") ;;;
  emit (Client_text "Content-type:text/html") ;;;
  emit (Client_text "") ;;;
  emit (Client_text "<html>") ;;;
  emit (Client_text "<body>") ;;;
  emit (Client_text "<h2>ESP8266 thermometer configuration</h2>").

Definition httpFooter : M unit :=
  emit (Client_text "<p><a href=/>Back</a> to main page</p>") ;;;
  emit (Client_text "</body>") ;;;
  emit (Client_text "</html>").

Definition httpConfigPage : M unit :=
  httpHeader ;;;
  emit (Client_text "<p>MAC address:</p>") ;;;
  emit Client_mac ;;;
  emit (Client_text "<form action=/config.html>") ;;;
  cfg <- gets config ;;
  emit (Client_text "ssid") ;;;
  emit (Client_bytes (staSSID cfg)) ;;;
  emit (Client_text "password") ;;;
  emit (Client_bytes (staPSK cfg)) ;;;
  emit (Client_text "community") ;;;
  emit (Client_bytes (roCommunity cfg)) ;;;
  emit (Client_text "</form>") ;;;
  emit (Client_text "<form action=/reset.html>") ;;;
  emit (Client_text "</form>") ;;;
  emit (Client_text "</body>") ;;;
  emit (Client_text "</html>").

Definition httpResetConfiguration : M unit :=
  httpHeader ;;;
  emit (Client_text "<p>Load default configuration</p>") ;;;
  httpFooter ;;;
  cfg <- gets config ;;
  let d := eepromData cfg in
  let d := Config.strcpy off_staSSID DEFAULT_SSID d in
  let d := Config.strcpy off_staPSK DEFAULT_PSK d in
  let d := Config.strcpy off_roCommunity RO_COMMUNITY d in
  set_config (Config.set_eepromData d cfg).

Definition httpSetSsid (ssid : ptr) : M unit := strcpy_field "staSSID" off_staSSID ssid.
Definition httpSetPassword (password : ptr) : M unit := strcpy_field "staPSK" off_staPSK password.
Definition httpSetRoCommunity (community : ptr) : M unit :=
  strcpy_field "roCommunity" off_roCommunity community.

Definition httpParamHandlers : list (string * (ptr -> M unit)) :=
  [ ("ssid"%string, httpSetSsid);
    ("password"%string, httpSetPassword);
    ("community"%string, httpSetRoCommunity) ].

(** The search of [httpParseParam] from entry [c] on. *)
Fixpoint httpParseParam_from (table : list (string * (ptr -> M unit)))
    (paramName paramValue : ptr) : M unit :=
  match table with
  | [] => emit (Serial_text "Bad parameter")
  | (name, fn) :: table =>
      same <- strcmp_eq name paramName ;;
      if same then fn paramValue
      else httpParseParam_from table paramName paramValue
  end.

Definition httpParseParam (paramName paramValue : ptr) : M unit :=
  emit (Serial_text "Trying to set ") ;;;
  print_ptr Serial_bytes paramName ;;;
  emit (Serial_text " to ") ;;;
  print_ptr Serial_bytes paramValue ;;;
  httpParseParam_from httpParamHandlers paramName paramValue.

Definition saveConfig : M unit :=
  cfg <- gets config ;;
  set_config (Config.saveConfig cfg).

(** The body of the loop of [httpSaveConfiguration] for one [c]. *)
Definition httpSaveConfiguration_param (c : nat) : M unit :=
  params <- gets httpParams ;;
  paramName <- strtok (default None (params !! c)) [61] ;;
  paramValue <- strtok None [61] ;;
  emit (Client_text "<p>Set '") ;;;
  print_ptr Client_bytes paramName ;;;
  emit (Client_text "' to '") ;;;
  print_ptr Client_bytes paramValue ;;;
  emit (Client_text "'</p><br>") ;;;
  httpParseParam paramName paramValue.

Definition httpSaveConfiguration : M unit :=
  httpHeader ;;;
  emit (Client_text "<p>Save configuration:</p><br>") ;;;
  httpSaveConfiguration_param 1 ;;;
  httpSaveConfiguration_param 2 ;;;
  httpSaveConfiguration_param 3 ;;;
  httpFooter ;;;
  saveConfig.

Definition httpNotFound : M unit := emit (Client_text "HTTP/1.1 404 Not Found").

Definition getRequests : list (string * M unit) :=
  [ ("/reset.html"%string, httpResetConfiguration);
    ("/config.html"%string, httpSaveConfiguration);
    ("/"%string, httpConfigPage) ].

(** The delimiters ["?& "]. *)
Definition url_delims : list Z := [63; 38; 32].

(** The tokenising loop of [httpHandleGetRequest]; [free] counts the slots
    of [httpParams] from [c] to the end of the array. *)
Fixpoint httpHandleGetRequest_tokens (free : nat) (c : nat) (tokPtr : ptr) : M unit :=
  match tokPtr with
  | None => ret tt
  | Some p =>
      match free with
      | O => fail (OutOfBounds "httpParams" (Z.of_nat c))
      | S free =>
          params <- gets httpParams ;;
          set_httpParams (<[c := Some p]> params) ;;;
          emit (Serial_text "Param ") ;;;
          emit (Serial_int (Z.of_nat c)) ;;;
          emit (Serial_text ": ") ;;;
          print_ptr Serial_bytes tokPtr ;;;
          tokPtr <- strtok None url_delims ;;
          httpHandleGetRequest_tokens free (S c) tokPtr
      end
  end.

(** The search of [httpHandleGetRequest] through the table of pages. *)
Fixpoint httpHandleGetRequest_find (table : list (string * M unit)) (file : ptr) : M unit :=
  match table with
  | [] => httpNotFound
  | (fileName, fn) :: table =>
      same <- strcmp_eq fileName file ;;
      if same then fn else httpHandleGetRequest_find table file
  end.

Definition httpHandleGetRequest (url : nat) : M unit :=
  tokPtr <- strtok (Some url) url_delims ;;
  httpHandleGetRequest_tokens sizeof_httpParams 0 tokPtr ;;;
  params <- gets httpParams ;;
  httpHandleGetRequest_find getRequests (default None (params !! 0%nat)).

(** *** The two readers *)

(** One pass of a reader's loop sees the clock and, if the client has sent
    one, the next byte. *)
Record poll := mkPoll {
  millis : Z;
  incoming : option Z
}.

(** [*urlPtr = c]. *)
Definition store_httpRequest (urlPtr : nat) (c : Z) : M unit :=
  buf <- gets httpRequest ;;
  if (urlPtr <? sizeof_httpRequest)%nat then set_httpRequest (<[urlPtr := c]> buf)
  else fail (OutOfBounds "httpRequest" (Z.of_nat urlPtr)).

(** A line is complete: terminate it, serve it if it is a GET, hang up. *)
Definition end_of_line (serve : nat -> M unit) (urlPtr : nat) : M unit :=
  store_httpRequest urlPtr 0 ;;;
  buf <- gets httpRequest ;;
  emit (Serial_bytes (cstr buf)) ;;;
  (if strncmp_eq buf "GET" 3 then serve 4%nat else ret tt) ;;;
  emit Client_flush ;;;
  emit Client_stop.

Definition idle_timeout : M unit :=
  emit (Serial_text "HTTP idle timeout") ;;;
  emit Client_stop.

(** The inner loop of [httpWebServer] for one client.  The script ends when
    the peer has gone; the result is [ms] as the loop leaves it. *)
Fixpoint httpWebServer_client (script : list poll) (urlPtr : nat) (ms : Z) : M Z :=
  match script with
  | [] => ret ms
  | p :: script =>
      match incoming p with
      | Some c =>
          let ms := ulong_wrap (millis p) in
          if c =? 10 then
            end_of_line httpHandleGetRequest urlPtr ;;; ret ms
          else if negb (c =? 13) then
            store_httpRequest urlPtr c ;;;
            httpWebServer_client script (S urlPtr) ms
          else httpWebServer_client script urlPtr ms
      | None =>
          if ulong_wrap (ms - ulong_wrap (millis p)) >? 2000 then
            idle_timeout ;;; ret ms
          else httpWebServer_client script urlPtr ms
      end
  end.

(** The outer loop of [httpWebServer] over the clients that connect, after
    [ms = millis ()] at [start]. *)
Fixpoint httpWebServer_clients (clients : list (list poll)) (ms : Z) : M Z :=
  match clients with
  | [] => ret ms
  | script :: clients =>
      ms <- httpWebServer_client script 0 ms ;;
      emit (Serial_text "Disconnected") ;;;
      httpWebServer_clients clients ms
  end.

Definition httpWebServer (start : Z) (clients : list (list poll)) : M Z :=
  emit (Serial_text "  Starting webserver...") ;;;
  httpWebServer_clients clients (ulong_wrap start).

(** The status page, given the sensor store it renders. *)
Definition httpStatusPage_row (s : Sensors.sensorType) : M unit :=
  emit (Client_int (Sensors.temperature s)) ;;;
  emit (Client_bytes (Sensors.addr s)).

Fixpoint httpStatusPage_rows (rows : list Sensors.sensorType) : M unit :=
  match rows with
  | [] => ret tt
  | s :: rows => httpStatusPage_row s ;;; httpStatusPage_rows rows
  end.

Definition httpStatusPage (sens : Sensors.state) (url : nat) : M unit :=
  filename <- strtok (Some url) url_delims ;;
  same <- strcmp_eq "/" filename ;;
  if negb same then httpNotFound
  else
    emit (Client_text "HTTP/1.1 200 OK") ;;;
    emit (Client_text "<h2>ESP8266 Thermometer Status</h2>") ;;;
    cfg <- gets config ;;
    emit (Client_bytes (staSSID cfg)) ;;;
    emit Client_rssi ;;;
    emit Client_mac ;;;
    emit (Client_int (Sensors.numSensors sens)) ;;;
    httpStatusPage_rows (take (Z.to_nat (Sensors.numSensors sens)) (Sensors.sensors sens)) ;;;
    emit (Client_text "</html>").

(** The loop of [httpStatusGetRequest]. *)
Fixpoint httpStatusGetRequest_loop (sens : Sensors.state) (script : list poll)
    (urlPtr : nat) (ms : Z) : M unit :=
  match script with
  | [] => ret tt
  | p :: script =>
      match incoming p with
      | Some c =>
          let ms := ulong_wrap (millis p) in
          if c =? 10 then end_of_line (httpStatusPage sens) urlPtr
          else if negb (c =? 13) then
            store_httpRequest urlPtr c ;;;
            httpStatusGetRequest_loop sens script (S urlPtr) ms
          else httpStatusGetRequest_loop sens script urlPtr ms
      | None =>
          if ulong_wrap (ulong_wrap (millis p) - ms) >? 2000 then idle_timeout
          else httpStatusGetRequest_loop sens script urlPtr ms
      end
  end.

(** [entry] is the clock when the function is entered. *)
Definition httpStatusGetRequest (sens : Sensors.state) (entry : Z) (script : list poll) : M unit :=
  emit (Serial_text "Client connected to webserver") ;;;
  httpStatusGetRequest_loop sens script 0 (ulong_wrap entry) ;;;
  emit (Serial_text "Disconnected").


Definition timed_out (tr : list event) : bool :=
  existsb (fun e => match e with
                    | Serial_text s => String.eqb s "HTTP idle timeout"
                    | _ => false
                    end) tr.

End Http.

(** ** Auxiliary notions used by the statements *)

(** The nearest integer to [num / den], halves away from zero, for
    [0 < den]: the rounding the specification asks of the stored value. *)
Definition round_nearest (num den : Z) : Z :=
  Z.sgn num * ((2 * Z.abs num + den) / (2 * den)).

(** The driver of the DallasTemperature library answers -127 for a sensor
    that does not respond; a conversion C leaves undefined saturates. *)
#[local] Instance esp8266 : Platform := {|
  DEVICE_DISCONNECTED_C := f32_of_int (-127);
  f32_to_int_undefined := fun x =>
    match x with
    | S754_finite true _ _ | S754_infinity true => INT_MIN
    | S754_nan => 0
    | _ => INT_MAX
    end
|}.

(** 20.0625 degrees, as a DS18B20 at twelve bits reports it. *)
Definition t_20_0625 : float32 := S754_finite false 10518528 (-19).

(** Closes a closed side condition by evaluation. *)
Ltac evaluate :=
  first [ reflexivity
        | vm_compute; repeat split; first [reflexivity | discriminate | congruence] ].

Module SchedulerInv.
Import Sensors.

(** [k] cycles are complete and [r] passes of the next one are done, on a
    scheduler with [N] sensors that started with the store [l0] and the
    reads [R0]. *)
Definition progress (N : Z) (l0 : list sensorType) (R0 : list (list Z))
    (k r : Z) (st : state) : Prop :=
  0 <= r < SENSOR_TICKS /\ 0 <= k <= N /\
  numSensors st = N /\
  sensorTicks st = SENSOR_TICKS - r /\
  currentSensor st = (if k <? N then k else 0) /\
  reads (trace st) = R0 ++ map (sensor_addr l0) (seqZ 0 k) /\
  (forall i, sensor_addr (sensors st) i = sensor_addr l0 i).

(** What every reachable scheduler state satisfies. *)
Definition wf (st : state) : Prop :=
  0 <= numSensors st <= MAX_SENSORS /\
  length (sensors st) = Z.to_nat MAX_SENSORS /\
  1 <= sensorTicks st <= SENSOR_TICKS /\
  0 <= currentSensor st /\
  (currentSensor st < numSensors st \/ (numSensors st = 0 /\ currentSensor st = 0)).

(** The fields that only [emit] touches. *)
Definition quiet (st st' : state) : Prop :=
  sensors st' = sensors st /\ numSensors st' = numSensors st /\
  currentSensor st' = currentSensor st /\ sensorTicks st' = sensorTicks st /\
  ledTicks st' = ledTicks st /\ reads (trace st') = reads (trace st).

End SchedulerInv.

(** Inputs and outcomes of the scenarios about the two servers. *)
Module Scenarios.
Import Config Http.

(** The passes in which the bytes of [bytes] arrive, all at clock [now]. *)
Definition arriving (now : Z) (bytes : list Z) : list poll :=
  map (fun c => mkPoll now (Some c)) bytes.

(** A byte the readers append to the line. *)
Definition plain (c : Z) : Prop := c <> 10 /\ c <> 13.

(** The request line of the scenario, as sent bare and as a browser sends it. *)
Definition save_request : string :=
  "GET /config.html?ssid=MyNet&password=Secret&community=public".
Definition save_request_line : list Z := bytes_of_string save_request ++ [10].
Definition save_request_line_http : list Z :=
  bytes_of_string save_request ++ bytes_of_string " HTTP/1.1" ++ [13; 10].

(** The record with the three strings copied into their fields. *)
Definition with_strings (ssid psk community : list Z) (cfg : Config.state) : Config.state :=
  Config.set_eepromData
    (Config.strcpy off_roCommunity community
       (Config.strcpy off_staPSK psk
          (Config.strcpy off_staSSID ssid (eepromData cfg)))) cfg.

(** A run that ends without fault and leaves the configuration [cfg']. *)
Definition served_by (cfg' : Config.state) (r : result (Z * state)) : Prop :=
  match r with
  | Ok (_, st) => config st = cfg'
  | Fault _ => False
  end.

(** The outcome the scenario asks for: the three strings are set, and the
    record has been written to the EEPROM and committed to the flash. *)
Definition saved_MyNet (r : result (Z * state)) : Prop :=
  exists ms st,
    r = Ok (ms, st) /\
    staSSID (config st) = bytes_of_string "MyNet" /\
    staPSK (config st) = bytes_of_string "Secret" /\
    roCommunity (config st) = bytes_of_string "public" /\
    commits (EEPROM (config st)) = 1%nat /\
    data (EEPROM (config st)) = eepromData (config st) /\
    forall a, 0 <= a < sizeof_eepromData ->
              flash (EEPROM (config st)) a = byte_at (eepromData (config st)) (Z.to_nat a).

End Scenarios.

(** Well-formedness of the configuration record. *)
Module Invariants.
Import Config.

(** A record as [getConfig] accepts it: 200 bytes that declare their own
    size and end in the marker. *)
Definition record_ok (d : list Z) : Prop :=
  length d = Z.to_nat sizeof_eepromData /\
  peek_int d off_eepromSize = sizeof_eepromData /\
  peek_ushort d off_dataValid = EEPROM_VALID.

(** Every element is a byte. *)
Definition bytes_ok (d : list Z) : Prop := Forall (fun b => 0 <= b < 256) d.

End Invariants.

(** Notions for the statements about the readers and the handlers. *)
Module HttpNotions.
Import Config Http Scenarios Invariants.

(** The state with another content of [httpRequest]. *)
Definition with_httpRequest (b : list Z) (st : state) : state :=
  mkState (config st) b (httpParams st) (strtok_last st) (trace st).

(** The state once the line [bytes] sits, NUL-terminated, at the start of
    [httpRequest]. *)
Definition holding_line (bytes : list Z) (st : state) : state :=
  with_httpRequest (Config.strcpy 0 bytes (httpRequest st)) st.




(** Every run of [m] that ends without fault relates the state before to
    the state after by [R]. *)
Definition preserves (R : state -> state -> Prop) {A} (m : M A) : Prop :=
  forall st a st', m st = Ok (a, st') -> R st st'.

(** The configuration is the same before and after. *)
Definition same_config (st st' : state) : Prop := config st' = config st.



(** The parameter names of the form, each with the field its handler
    fills. *)
Definition fields : list (string * nat) :=
  [ ("ssid"%string, off_staSSID);
    ("password"%string, off_staPSK);
    ("community"%string, off_roCommunity) ].

(** The state with more events in its logs. *)
Definition logging (tr : list event) (st : state) : state :=
  mkState (config st) (httpRequest st) (httpParams st) (strtok_last st) (trace st ++ tr).

End HttpNotions.

(** * Properties *)

Lemma int_wrap_small (z : Z) : INT_MIN <= z <= INT_MAX -> int_wrap z = z.
Proof.
  unfold int_wrap, INT_MIN, INT_MAX. intros Hz.
  rewrite Z.mod_small by lia. lia.
Qed.

Lemma int_wrap_0 : int_wrap 0 = 0.
Proof. vm_compute. reflexivity. Qed.

Module SchedulerFacts.
Import Sensors SchedulerInv.

(** Storing a temperature leaves every address as it was. *)
Lemma sensor_addr_store_temperature i v l j :
  sensor_addr (store_temperature i v l) j = sensor_addr l j.
Proof.
  unfold sensor_addr, store_temperature, sensor_at.
  destruct (Z.leb_spec 0 i) as [Hi|Hi]; [|reflexivity].
  destruct (l !! Z.to_nat i) as [s|] eqn:E; [|reflexivity].
  destruct (Z.leb_spec 0 j) as [Hj|Hj]; [|reflexivity].
  destruct (decide (Z.to_nat i = Z.to_nat j)) as [Heq|Hne].
  - rewrite <- Heq, list_lookup_insert_eq by (eapply lookup_lt_Some; eassumption).
    rewrite E. reflexivity.
  - rewrite list_lookup_insert_ne by assumption. reflexivity.
Qed.

Lemma reads_snoc tr e :
  reads (tr ++ [e]) = reads tr ++ match e with dallas_getTempC a => [a] | _ => [] end.
Proof. unfold reads. rewrite omap_app. destruct e; reflexivity. Qed.

Lemma printed_snoc tr e :
  printed (tr ++ [e]) = printed tr ++ match e with Serial_println s => [s] | _ => [] end.
Proof. unfold printed. rewrite omap_app. destruct e; reflexivity. Qed.

Lemma led_writes_snoc tr e :
  led_writes (tr ++ [e]) =
  led_writes tr ++ match e with digitalWrite_LED_BUILTIN l => [l] | _ => [] end.
Proof. unfold led_writes. rewrite omap_app. destruct e; reflexivity. Qed.

Lemma temperature_store_addr c a l :
  map temperature (store_addr c a l) = map temperature l.
Proof.
  unfold store_addr, sensor_at.
  destruct (Z.leb_spec 0 c); [|reflexivity].
  destruct (l !! Z.to_nat c) as [s|] eqn:E; [|reflexivity].
  change (map temperature) with (fmap (M:=list) temperature).
  rewrite list_fmap_insert. cbn. apply list_insert_id.
  rewrite list_lookup_fmap, E. reflexivity.
Qed.

Lemma length_store_addr c a l : length (store_addr c a l) = length l.
Proof.
  unfold store_addr. destruct (sensor_at l c); [apply length_insert | reflexivity].
Qed.

Lemma sensor_addr_store_addr c a l i :
  sensor_addr (store_addr c a l) i =
  if bool_decide (i = c) && (0 <=? c) && (c <? Z.of_nat (length l)) then a else sensor_addr l i.
Proof.
  unfold sensor_addr, store_addr, sensor_at.
  destruct (Z.leb_spec 0 c) as [Hc|Hc]; cbn.
  - destruct (l !! Z.to_nat c) as [s|] eqn:E.
    + pose proof (lookup_lt_Some _ _ _ E) as Hlt.
      destruct (Z.ltb_spec c (Z.of_nat (length l))); [|lia].
      case_bool_decide as Hi; cbn.
      * subst i. destruct (Z.leb_spec 0 c); [|lia].
        rewrite list_lookup_insert_eq by assumption. reflexivity.
      * destruct (Z.leb_spec 0 i); [|reflexivity].
        rewrite list_lookup_insert_ne by lia. reflexivity.
    + pose proof (lookup_ge_None_1 _ _ E).
      destruct (Z.ltb_spec c (Z.of_nat (length l))); [lia|].
      rewrite andb_false_r. reflexivity.
  - rewrite andb_false_r. reflexivity.
Qed.

Lemma printSensorAddress_quiet a st : quiet st (snd (printSensorAddress a st)).
Proof.
  unfold printSensorAddress. cbn [snd].
  generalize (take 8 a). intros l. revert st.
  induction l as [|b l IH]; intros st; cbn [fold_left].
  - repeat split.
  - destruct (IH (printSensorAddress_byte b st)) as (? & ? & ? & ? & ? & HR).
    unfold quiet. rewrite H, H0, H1, H2, H3, HR.
    unfold printSensorAddress_byte. destruct (b <? 16); cbn;
      rewrite ?reads_snoc, ?app_nil_r; repeat split.
Qed.

Lemma quiet_refl st : quiet st st.
Proof. repeat split. Qed.

Lemma quiet_trans a b c : quiet a b -> quiet b c -> quiet a c.
Proof.
  unfold quiet. intros (?&?&?&?&?&?) (?&?&?&?&?&?).
  repeat split; congruence.
Qed.

Lemma quiet_emit e st :
  match e with dallas_getTempC _ => False | _ => True end -> quiet st (emit e st).
Proof.
  intros He. unfold quiet, emit. cbn. rewrite reads_snoc.
  destruct e; try contradiction; rewrite app_nil_r; repeat split.
Qed.

Lemma initSensors_loop_spec devices fuel :
  forall c st, 0 <= c ->
  let st' := initSensors_loop devices c fuel st in
  numSensors st' = numSensors st /\ currentSensor st' = currentSensor st /\
  sensorTicks st' = sensorTicks st /\ reads (trace st') = reads (trace st) /\
  length (sensors st') = length (sensors st) /\
  map temperature (sensors st') = map temperature (sensors st) /\
  forall i, sensor_addr (sensors st') i =
            if (c <=? i) && (i <? c + Z.of_nat fuel) && (i <? numSensors st)
               && (i <? Z.of_nat (length (sensors st)))
            then nth (Z.to_nat i) devices no_addr else sensor_addr (sensors st) i.
Proof.
  induction fuel as [|fuel IH]; intros c st Hc; cbn zeta.
  - cbn [initSensors_loop]. repeat split. intros i.
    destruct (Z.leb_spec c i), (Z.ltb_spec i (c + Z.of_nat 0)); try lia; reflexivity.
  - cbn [initSensors_loop].
    destruct (Z.ltb_spec c (numSensors st)) as [Hlt|Hge].
    + set (a := nth (Z.to_nat c) devices no_addr).
      unfold printSensorAddress.
      match goal with
      | |- context [initSensors_loop devices (c + 1) fuel ?s] => set (st1 := s)
      end.
      assert (Hq : sensors st1 = store_addr c a (sensors st) /\ numSensors st1 = numSensors st /\
                   currentSensor st1 = currentSensor st /\ sensorTicks st1 = sensorTicks st /\
                   reads (trace st1) = reads (trace st)).
      { subst st1.
        match goal with
        | |- context [fold_left ?f ?l ?s] =>
            pose proof (printSensorAddress_quiet a s) as Hp; set (s0 := s) in *
        end.
        unfold printSensorAddress in Hp. cbn [snd] in Hp.
        destruct Hp as (P1 & P2 & P3 & P4 & P5 & P6).
        destruct (_ =? 1); cbn [sensors numSensors currentSensor sensorTicks trace emit];
          rewrite ?reads_snoc, ?app_nil_r, P1, P2, P3, P4, P6; subst s0;
          cbn [sensors numSensors currentSensor sensorTicks trace emit set_sensors];
          rewrite ?reads_snoc, ?app_nil_r; repeat split. }
      destruct Hq as (Q1 & Q2 & Q3 & Q4 & Q5).
      destruct (IH (c + 1) st1 ltac:(lia)) as (I1 & I2 & I3 & I4 & I5 & I6 & I7).
      rewrite I1, I2, I3, I4, I5, I6, Q1, Q2, Q3, Q4, Q5.
      rewrite length_store_addr, temperature_store_addr.
      repeat split. intros i. rewrite I7, Q1, Q2, length_store_addr, sensor_addr_store_addr.
      destruct (Z.leb_spec (c + 1) i), (Z.leb_spec c i), (Z.ltb_spec i (c + 1 + Z.of_nat fuel)),
        (Z.ltb_spec i (c + Z.of_nat (S fuel))), (Z.ltb_spec i (numSensors st)),
        (Z.ltb_spec i (Z.of_nat (length (sensors st)))), (Z.leb_spec 0 c),
        (Z.ltb_spec c (Z.of_nat (length (sensors st))));
        try case_bool_decide; cbn; try lia; try reflexivity.
      all: subst; try lia; try reflexivity.
    + repeat split. intros i.
      destruct (Z.leb_spec c i), (Z.ltb_spec i (numSensors st)); cbn; try lia;
        rewrite ?andb_false_r; reflexivity.
Qed.

Lemma getDeviceCount_range devices : 0 <= getDeviceCount devices < 256.
Proof. unfold getDeviceCount. apply Z.mod_pos_bound. lia. Qed.

Lemma getDeviceCount_le devices : getDeviceCount devices <= Z.of_nat (length devices).
Proof. unfold getDeviceCount. apply Z.mod_le; lia. Qed.

Lemma initSensors_fresh devices :
  let st0 := initSensors devices boot in
  numSensors st0 = Z.min (getDeviceCount devices) MAX_SENSORS /\
  currentSensor st0 = 0 /\ sensorTicks st0 = SENSOR_TICKS /\
  reads (trace st0) = [] /\
  length (sensors st0) = Z.to_nat MAX_SENSORS /\
  map temperature (sensors st0) = [1111; 2222; 3333; 4444] /\
  forall i, 0 <= i < numSensors st0 ->
            sensor_addr (sensors st0) i = nth (Z.to_nat i) devices no_addr.
Proof.
  pose proof (getDeviceCount_range devices) as Hd.
  unfold initSensors. cbn zeta.
  cbn [numSensors emit set_numSensors set_currentSensor set_sensorTicks].
  unfold MAX_SENSORS in *.
  destruct (Z.ltb_spec 4 (getDeviceCount devices)) as [Hgt|Hle];
    cbn [numSensors emit set_numSensors set_currentSensor set_sensorTicks];
    match goal with
    | |- context [initSensors_loop devices 0 ?f ?s] =>
        destruct (initSensors_loop_spec devices f 0 s ltac:(lia))
          as (I1 & I2 & I3 & I4 & I5 & I6 & I7)
    end;
    rewrite I1, I2, I3, I4, I5, I6; cbn;
    (repeat split; try lia; try reflexivity);
    intros i Hi; rewrite I7;
    cbn [numSensors emit set_numSensors set_currentSensor set_sensorTicks sensors boot length];
    change (Z.of_nat 4) with 4;
    repeat match goal with
           | |- context [Z.leb ?a ?b] => destruct (Z.leb_spec a b); try lia
           | |- context [Z.ltb ?a ?b] => destruct (Z.ltb_spec a b); try lia
           end; reflexivity.
Qed.

Lemma addresses_of_first devices (l : list sensorType) N :
  0 <= N <= Z.of_nat (length devices) ->
  (forall i, 0 <= i < N -> sensor_addr l i = nth (Z.to_nat i) devices no_addr) ->
  map (sensor_addr l) (seqZ 0 N) = take (Z.to_nat N) devices.
Proof.
  intros HN Ha. apply list_eq. intros i.
  change (map (sensor_addr l)) with (fmap (M:=list) (sensor_addr l)).
  rewrite list_lookup_fmap.
  destruct (Z.lt_ge_cases (Z.of_nat i) N) as [Hlt|Hge].
  - rewrite lookup_seqZ_lt by lia. cbn.
    rewrite lookup_take_lt by lia.
    rewrite Ha by lia. rewrite Z.add_0_l, Nat2Z.id.
    destruct (nth_lookup_or_length devices i no_addr) as [->|Hlen]; [reflexivity | lia].
  - rewrite lookup_seqZ_ge by lia. cbn.
    rewrite lookup_take_ge by lia. reflexivity.
Qed.

(** The conversion to [int] discards the fraction: it is the quotient of
    the value's numerator by its denominator, rounded toward zero. *)
Lemma f32_to_int_defined_truncates x z :
  f32_to_int_defined x = Some z -> z = Z.quot (f32_num x) (f32_den x).
Proof.
  destruct x as [s|s| |s m e]; cbn [f32_to_int_defined f32_num f32_den]; try discriminate.
  - intros [= <-]. reflexivity.
  - destruct (_ && _); [|discriminate]. intros [= <-].
    destruct (Z.le_gt_cases 0 e) as [He|He].
    + rewrite Z.shiftl_mul_pow2 by lia.
      rewrite (Z.max_l e 0), (Z.max_r (- e) 0) by lia.
      change (2 ^ 0) with 1. rewrite Z.quot_1_r. reflexivity.
    + rewrite Z.shiftl_div_pow2 by lia.
      rewrite (Z.max_r e 0), (Z.max_l (- e) 0) by lia.
      change (2 ^ 0) with 1. rewrite Z.mul_1_r.
      assert (Hd : 0 < 2 ^ (- e)) by (apply Z.pow_pos_nonneg; lia).
      destruct s; cbn [cond_Zopp].
      * rewrite Z.quot_opp_l by lia. rewrite Z.quot_div_nonneg by lia. reflexivity.
      * rewrite Z.quot_div_nonneg by lia. reflexivity.
Qed.

Lemma sensor_at_store_temperature_eq i v l s :
  sensor_at l i = Some s ->
  sensor_at (store_temperature i v l) i = Some (mkSensor (addr s) v).
Proof.
  unfold store_temperature. intros E. rewrite E.
  unfold sensor_at in *. destruct (0 <=? i); [|discriminate].
  apply list_lookup_insert_eq. eapply lookup_lt_Some. eassumption.
Qed.

Lemma sensor_at_store_temperature_ne i v l j :
  i <> j -> sensor_at (store_temperature i v l) j = sensor_at l j.
Proof.
  intros Hne. unfold store_temperature.
  destruct (sensor_at l i) eqn:E; [|reflexivity].
  unfold sensor_at in *.
  destruct (Z.leb_spec 0 i); [|discriminate].
  destruct (Z.leb_spec 0 j); [|reflexivity].
  apply list_lookup_insert_ne. lia.
Qed.

Section WithPlatform.
Context `{Platform}.

(** A pass that does not reach the end of the countdown only decrements it. *)
Lemma processSensors_idle t st :
  1 < sensorTicks st <= SENSOR_TICKS ->
  processSensors t st = set_sensorTicks (sensorTicks st - 1) st.
Proof.
  intros Ht. unfold processSensors, SENSOR_TICKS in *.
  rewrite int_wrap_small by (unfold INT_MIN, INT_MAX; lia).
  cbn [sensorTicks set_sensorTicks].
  destruct (Z.eqb_spec (sensorTicks st - 1) 0); [lia | reflexivity].
Qed.

(** The pass that ends a cycle with no sensor on the bus. *)
Lemma processSensors_empty t st :
  sensorTicks st = 1 -> numSensors st = 0 ->
  processSensors t st =
  emit (Serial_println "No temperature sensors!!!!")
       (ledOn LED_TICKS (set_sensorTicks SENSOR_TICKS st)).
Proof.
  intros Ht Hn. unfold processSensors. rewrite Ht.
  change (1 - 1) with 0. rewrite int_wrap_0.
  cbn [sensorTicks set_sensorTicks Z.eqb].
  cbn [numSensors ledOn emit set_ledTicks set_sensorTicks].
  rewrite Hn. reflexivity.
Qed.

(** The pass that ends a cycle with sensors on the bus, field by field. *)
Lemma processSensors_boundary t st :
  sensorTicks st = 1 -> numSensors st <> 0 ->
  INT_MIN <= currentSensor st < INT_MAX ->
  let st' := processSensors t st in
  sensorTicks st' = SENSOR_TICKS /\
  numSensors st' = numSensors st /\
  ledTicks st' = LED_TICKS /\
  currentSensor st' =
    (if currentSensor st + 1 =? numSensors st then 0 else currentSensor st + 1) /\
  sensors st' = stored t st /\
  reads (trace st') = reads (trace st) ++ [sensor_addr (sensors st) (currentSensor st)] /\
  led_writes (trace st') = led_writes (trace st) ++ [LOW] /\
  exists pre post,
    printed (trace st') =
    printed (trace st) ++ pre
      ++ (if f32_eqb t DEVICE_DISCONNECTED_C then ["Error reading temperature"%string]
          else [" C"%string]) ++ post.
Proof.
  intros Ht Hn Hc. unfold processSensors, stored. rewrite Ht.
  change (1 - 1) with 0. rewrite int_wrap_0.
  cbn [sensorTicks set_sensorTicks Z.eqb].
  cbn [numSensors ledOn emit set_ledTicks set_sensorTicks currentSensor sensors trace].
  destruct (Z.eqb_spec (numSensors st) 0) as [|_]; [contradiction|].
  destruct (Z.eqb_spec (currentSensor st) 0) as [Hz|Hz];
    destruct (f32_eqb t DEVICE_DISCONNECTED_C);
    cbn [numSensors ledOn emit set_ledTicks set_sensorTicks set_sensors set_currentSensor
         currentSensor sensors trace sensorTicks ledTicks];
    rewrite (int_wrap_small (currentSensor st + 1)) by (unfold INT_MIN, INT_MAX in *; lia);
    destruct (Z.eqb_spec (currentSensor st + 1) (numSensors st));
    cbn [numSensors ledOn emit set_ledTicks set_sensorTicks set_sensors set_currentSensor
         currentSensor sensors trace sensorTicks ledTicks];
    repeat rewrite reads_snoc; repeat rewrite led_writes_snoc;
    repeat rewrite printed_snoc; cbn [app];
    repeat rewrite app_nil_r;
    (repeat split; try reflexivity);
    repeat rewrite <- app_assoc; cbn [app].
  all: try (eexists [_], [_]; reflexivity).
  all: try (eexists [_], []; reflexivity).
  all: try (eexists [], [_]; reflexivity).
  all: try (eexists [], []; reflexivity).
Qed.

Lemma processLED_frame st :
  sensors (processLED st) = sensors st /\
  numSensors (processLED st) = numSensors st /\
  currentSensor (processLED st) = currentSensor st /\
  sensorTicks (processLED st) = sensorTicks st /\
  reads (trace (processLED st)) = reads (trace st) /\
  printed (trace (processLED st)) = printed (trace st).
Proof.
  unfold processLED.
  destruct (ledTicks st =? 0); [tauto|].
  cbn. destruct (int_wrap (ledTicks st - 1) =? 0); cbn; [|tauto].
  rewrite reads_snoc, printed_snoc, !app_nil_r. tauto.
Qed.

Lemma run_cons t ts st : run (t :: ts) st = run ts (loop t st).
Proof. unfold run. cbn [fold_left]. reflexivity. Qed.

Lemma run_app ts1 ts2 st : run (ts1 ++ ts2) st = run ts2 (run ts1 st).
Proof. unfold run. apply fold_left_app. Qed.

(** One pass of [loop] moves the scheduler one step along its cycle. *)
Lemma progress_step N l0 R0 k r t st :
  0 <= N <= MAX_SENSORS ->
  progress N l0 R0 k r st ->
  (r < SENSOR_TICKS - 1 -> progress N l0 R0 k (r + 1) (loop t st)) /\
  (r = SENSOR_TICKS - 1 -> k < N -> progress N l0 R0 (k + 1) 0 (loop t st)).
Proof.
  intros HN (Hr & Hk & Hn & Ht & Hc & HR & Ha).
  unfold loop, SENSOR_TICKS, MAX_SENSORS in *.
  destruct (processLED_frame (processSensors t st)) as (Ls & Ln & Lc & Lt & LR & _).
  split.
  - intros Hlt.
    assert (E : processSensors t st = set_sensorTicks (sensorTicks st - 1) st).
    { apply processSensors_idle. unfold SENSOR_TICKS. lia. }
    rewrite E in *. cbn in *.
    unfold progress, SENSOR_TICKS. rewrite Ls, Ln, Lc, Lt, LR.
    repeat split; try assumption; try lia.
  - intros -> Hlt.
    destruct (Z.ltb_spec k N) as [_|]; [|lia].
    destruct (processSensors_boundary t st) as (Bt & Bn & _ & Bc & Bs & BR & _).
    { lia. } { lia. } { unfold INT_MIN, INT_MAX. lia. }
    unfold progress, SENSOR_TICKS.
    rewrite Ls, Ln, Lc, Lt, LR, Bt, Bn, Bc, BR, Bs, Hn, Hc, HR, Ha.
    repeat split; try lia.
    + destruct (Z.eqb_spec (k + 1) N), (Z.ltb_spec (k + 1) N); lia.
    + replace (k + 1) with (k + 1 * 1) by lia.
      rewrite seqZ_app by lia. rewrite map_app, <- app_assoc. reflexivity.
    + intros i. rewrite <- Ha. unfold stored.
      destruct (f32_eqb t DEVICE_DISCONNECTED_C); [reflexivity|].
      apply sensor_addr_store_temperature.
Qed.

Lemma run_progress N l0 R0 ts :
  0 <= N <= MAX_SENSORS ->
  forall k r st,
    progress N l0 R0 k r st ->
    SENSOR_TICKS * k + r + Z.of_nat (length ts) <= SENSOR_TICKS * N ->
    exists k' r',
      progress N l0 R0 k' r' (run ts st) /\
      SENSOR_TICKS * k' + r' = SENSOR_TICKS * k + r + Z.of_nat (length ts).
Proof.
  intros HN. induction ts as [|t ts IH]; intros k r st Hp Hlen.
  - exists k, r. split; [exact Hp | cbn; lia].
  - rewrite run_cons. cbn [length] in *.
    destruct (progress_step N l0 R0 k r t st HN Hp) as [Hidle Hend].
    pose proof Hp as (Hr & Hk & _). unfold SENSOR_TICKS in *.
    destruct (Z.lt_ge_cases r 49) as [Hlt|Hge].
    + destruct (IH k (r + 1) (loop t st)) as (k' & r' & Hp' & He); [auto | lia |].
      exists k', r'. split; [exact Hp' | lia].
    + assert (r = 49) by lia. subst r.
      destruct (IH (k + 1) 0 (loop t st)) as (k' & r' & Hp' & He).
      { apply Hend; lia. } { lia. }
      exists k', r'. split; [exact Hp' | lia].
Qed.

(** From a scheduler with the cursor at 0 and a full countdown, [N] cycles
    read the sensors 0, 1, ..., N - 1 once each, in that order, and bring
    the cursor back to 0. *)
Lemma cycles_read_each_once N st0 ts :
  0 <= N <= MAX_SENSORS ->
  numSensors st0 = N -> currentSensor st0 = 0 -> sensorTicks st0 = SENSOR_TICKS ->
  Z.of_nat (length ts) = N * SENSOR_TICKS ->
  reads (trace (run ts st0)) =
    reads (trace st0) ++ map (sensor_addr (sensors st0)) (seqZ 0 N) /\
  currentSensor (run ts st0) = 0 /\
  sensorTicks (run ts st0) = SENSOR_TICKS.
Proof.
  intros HN Hn Hc Ht Hlen.
  assert (Hp : progress N (sensors st0) (reads (trace st0)) 0 0 st0).
  { unfold progress, SENSOR_TICKS in *. rewrite Hc, Ht.
    repeat split; try lia; try reflexivity; try assumption.
    - destruct (0 <? N); reflexivity.
    - cbn. rewrite app_nil_r. reflexivity. }
  destruct (run_progress N _ _ ts HN 0 0 st0 Hp) as (k' & r' & Hp' & He).
  { unfold SENSOR_TICKS in *. lia. }
  destruct Hp' as (Hr & Hk & _ & Ht' & Hc' & HR & _).
  unfold SENSOR_TICKS in *.
  assert (k' = N) by lia. assert (r' = 0) by lia. subst k' r'.
  rewrite Z.ltb_irrefl in Hc'. rewrite HR, Hc', Ht'. repeat split; lia.
Qed.

(** C1.  For every sensor count [N] the bus enumeration can leave (0 to 4),
    [N] complete cycles of [SENSOR_TICKS] passes from the freshly
    initialised scheduler hand the driver the addresses of sensors
    0, 1, ..., N - 1, once each and in this order, and leave the cursor
    [currentSensor] at 0 again. *)
Theorem C1_round_robin_visits_each_sensor_once (N : Z) (devices : list (list Z))
    (ts : list float32) :
  numSensors (initSensors devices boot) = N ->
  Z.of_nat (length ts) = N * SENSOR_TICKS ->
  0 <= N <= MAX_SENSORS /\
  reads (trace (run ts (initSensors devices boot))) = take (Z.to_nat N) devices /\
  currentSensor (run ts (initSensors devices boot)) = 0.
Proof.
  intros HN Hlen.
  destruct (initSensors_fresh devices) as (F1 & F2 & F3 & F4 & _ & _ & F7).
  pose proof (getDeviceCount_range devices) as Hr.
  pose proof (getDeviceCount_le devices) as Hle.
  rewrite HN in F1, F7.
  assert (HN' : 0 <= N <= MAX_SENSORS) by (unfold MAX_SENSORS in *; lia).
  destruct (cycles_read_each_once N (initSensors devices boot) ts HN' HN F2 F3 Hlen)
    as (HR & Hc & _).
  repeat split; try lia.
  rewrite HR, F4. cbn [app].
  apply addresses_of_first; [lia | exact F7].
Qed.

(** C2.  When the read at the end of a cycle fails (the driver answers the
    disconnected value), the whole store, and so the temperature [V] of
    the sensor that was read, is what it was before the pass; the line
    "Error reading temperature" goes to the serial port; and the cursor
    moves on to the next sensor. *)
Theorem C2_failed_read_keeps_stored_temperature
    (st : state) (t : float32) (i V : Z) (s : sensorType) :
  sensorTicks st = 1 ->
  currentSensor st = i ->
  0 <= i < numSensors st ->
  numSensors st <= MAX_SENSORS ->
  sensor_at (sensors st) i = Some s ->
  temperature s = V ->
  f32_eqb t DEVICE_DISCONNECTED_C = true ->
  let st' := processSensors t st in
  sensors st' = sensors st /\
  (exists s', sensor_at (sensors st') i = Some s' /\ temperature s' = V) /\
  (exists pre post,
     printed (trace st') =
     printed (trace st) ++ pre ++ ["Error reading temperature"%string] ++ post) /\
  reads (trace st') = reads (trace st) ++ [addr s] /\
  currentSensor st' = (i + 1) mod numSensors st.
Proof.
  intros Ht Hc Hi Hmax Hs HV Hfail st'.
  destruct (processSensors_boundary t st) as (_ & _ & _ & Bc & Bs & BR & _ & Bp).
  { exact Ht. } { lia. } { unfold INT_MIN, INT_MAX, MAX_SENSORS in *. lia. }
  fold st' in Bc, Bs, BR, Bp.
  unfold stored in Bs. rewrite Hfail in Bs, Bp.
  repeat split.
  - exact Bs.
  - exists s. rewrite Bs. split; assumption.
  - exact Bp.
  - rewrite BR, Hc. unfold sensor_addr. rewrite Hs. reflexivity.
  - rewrite Bc, Hc.
    destruct (Z.eqb_spec (i + 1) (numSensors st)) as [E|E].
    + rewrite <- E. rewrite Z_mod_same_full. reflexivity.
    + rewrite Z.mod_small by lia. reflexivity.
Qed.

(** C7, as the code has it.  A successful read whose tenfold (in single
    precision) is representable as an [int] stores that product with its
    fraction discarded: the quotient, rounded toward zero, of the
    product's numerator by its denominator. *)
Theorem C7_stored_value_is_truncated_tenths
    (st : state) (t : float32) (s : sensorType) (z : Z) :
  sensorTicks st = 1 ->
  numSensors st <> 0 ->
  0 <= currentSensor st < INT_MAX ->
  sensor_at (sensors st) (currentSensor st) = Some s ->
  f32_eqb t DEVICE_DISCONNECTED_C = false ->
  f32_to_int_defined (f32_mul t f32_ten) = Some z ->
  sensor_at (sensors (processSensors t st)) (currentSensor st) = Some (mkSensor (addr s) z) /\
  z = Z.quot (f32_num (f32_mul t f32_ten)) (f32_den (f32_mul t f32_ten)).
Proof.
  intros Ht Hn Hc Hs Hok Hz.
  destruct (processSensors_boundary t st) as (_ & _ & _ & _ & Bs & _).
  { exact Ht. } { exact Hn. } { unfold INT_MIN, INT_MAX in *. lia. }
  rewrite Bs. unfold stored. rewrite Hok.
  unfold f32_to_int. rewrite Hz. split.
  - apply sensor_at_store_temperature_eq. exact Hs.
  - apply f32_to_int_defined_truncates. exact Hz.
Qed.

(** C9, as the code has it.  A cycle that ends with no sensor on the bus
    reports it on the serial port and leaves the cursor and the store as
    they were, without asking the driver for anything; the countdown has
    been reset, and the activity indication has been triggered, since
    [ledOn] is called before the sensor count is looked at. *)
Theorem C9_empty_bus_cycle_keeps_cursor_and_store (st : state) (t : float32) :
  sensorTicks st = 1 ->
  numSensors st = 0 ->
  let st' := processSensors t st in
  currentSensor st' = currentSensor st /\
  sensors st' = sensors st /\
  numSensors st' = 0 /\
  reads (trace st') = reads (trace st) /\
  printed (trace st') = printed (trace st) ++ ["No temperature sensors!!!!"%string] /\
  sensorTicks st' = SENSOR_TICKS /\
  ledTicks st' = LED_TICKS /\
  led_writes (trace st') = led_writes (trace st) ++ [LOW].
Proof.
  intros Ht Hn st'. subst st'. rewrite processSensors_empty by assumption.
  unfold emit, ledOn, set_ledTicks, set_sensorTicks.
  cbn [currentSensor sensors numSensors trace sensorTicks ledTicks emit].
  rewrite !reads_snoc, !printed_snoc, !led_writes_snoc, !app_nil_r.
  repeat split; assumption.
Qed.

End WithPlatform.

Lemma C1_witness :
  let devices := [[40;1;2;3;4;5;6;7]; [40;9;9;9;9;9;9;9]] in
  let ts := repeat (f32_of_int 21) 100 in
  (numSensors (initSensors devices boot) = 2 /\
   Z.of_nat (length ts) = 2 * SENSOR_TICKS) /\
  (0 <= 2 <= MAX_SENSORS /\
   reads (trace (run ts (initSensors devices boot))) = take (Z.to_nat 2) devices /\
   currentSensor (run ts (initSensors devices boot)) = 0).
Proof.
  intros devices ts.
  split; [split; reflexivity|].
  apply (C1_round_robin_visits_each_sensor_once 2 devices ts); reflexivity.
Defined.

Lemma C2_witness :
  let st := set_sensorTicks 1 (initSensors [[40;1;2;3;4;5;6;7]] boot) in
  let t := f32_of_int (-127) in
  let s := mkSensor [40;1;2;3;4;5;6;7] 1111 in
  (sensorTicks st = 1 /\ currentSensor st = 0 /\ 0 <= 0 < numSensors st /\ numSensors st <= MAX_SENSORS /\
   sensor_at (sensors st) 0 = Some s /\ temperature s = 1111 /\
   f32_eqb t DEVICE_DISCONNECTED_C = true) /\
  sensors (processSensors t st) = sensors st.
Proof.
  intros st t s.
  split; [repeat split; evaluate|].
  apply (C2_failed_read_keeps_stored_temperature st t 0 1111 s); evaluate.
Defined.

Lemma C7_witness :
  let st := set_sensorTicks 1 (initSensors [[40;1;2;3;4;5;6;7]] boot) in
  let s := mkSensor [40;1;2;3;4;5;6;7] 1111 in
  (sensorTicks st = 1 /\ numSensors st <> 0 /\ 0 <= currentSensor st < INT_MAX /\
   sensor_at (sensors st) (currentSensor st) = Some s /\
   f32_eqb t_20_0625 DEVICE_DISCONNECTED_C = false /\
   f32_to_int_defined (f32_mul t_20_0625 f32_ten) = Some 200) /\
  sensor_at (sensors (processSensors t_20_0625 st)) (currentSensor st)
    = Some (mkSensor (addr s) 200).
Proof.
  intros st s.
  split; [repeat split; evaluate|].
  apply (C7_stored_value_is_truncated_tenths st t_20_0625 s 200); evaluate.
Defined.

(** C7 fails as stated: a reading of 20.0625 degrees is a successful read,
    its tenfold is 200.625, the nearest integer is 201, and 200 is stored. *)
Lemma C7_counterexample :
  let st := set_sensorTicks 1 (initSensors [[40;1;2;3;4;5;6;7]] boot) in
  let product := f32_mul t_20_0625 f32_ten in
  f32_valid t_20_0625 = true /\
  16 * f32_num t_20_0625 = 321 * f32_den t_20_0625 /\
  f32_eqb t_20_0625 DEVICE_DISCONNECTED_C = false /\
  round_nearest (f32_num t_20_0625 * 10) (f32_den t_20_0625) = 201 /\
  round_nearest (f32_num product) (f32_den product) = 201 /\
  map temperature (sensors (processSensors t_20_0625 st)) = [200; 2222; 3333; 4444] /\
  map temperature (sensors (processSensors t_20_0625 st))
    <> [round_nearest (f32_num product) (f32_den product); 2222; 3333; 4444].
Proof. vm_compute. repeat split; try reflexivity. discriminate. Qed.

Lemma C9_witness :
  let st := set_sensorTicks 1 (initSensors [] boot) in
  (sensorTicks st = 1 /\ numSensors st = 0) /\
  ledTicks (processSensors (f32_of_int 21) st) = LED_TICKS.
Proof.
  intros st. split; [split; reflexivity|].
  apply (C9_empty_bus_cycle_keeps_cursor_and_store st (f32_of_int 21)); reflexivity.
Defined.

(** C9 fails as stated: on a bus without sensors the pass that ends the
    cycle switches the LED on and arms its timer. *)
Lemma C9_counterexample :
  let st := set_sensorTicks 1 (initSensors [] boot) in
  let st' := processSensors (f32_of_int 21) st in
  numSensors st = 0 /\ sensorTicks st = 1 /\
  ledTicks st = 0 /\ ledTicks st' = 2 /\
  led_writes (trace st) = [] /\ led_writes (trace st') = [LOW] /\
  ~ (ledTicks st' = ledTicks st /\ led_writes (trace st') = led_writes (trace st)).
Proof.
  vm_compute. repeat split; try reflexivity.
  intros [E _]. discriminate E.
Qed.

Lemma length_store_temperature i v l : length (store_temperature i v l) = length l.
Proof.
  unfold store_temperature. destruct (sensor_at l i); [apply length_insert | reflexivity].
Qed.

(** The node registered for the temperature of sensor [k] answers with
    what the store holds at index [k - 1] when it is asked. *)
Lemma resolve_temperature N k millis (l : list sensorType) :
  1 <= k <= N -> N <= MAX_SENSORS ->
  Mib.resolve (Mib.initMibTree N) millis l (Mib.SENSOR_OID ++ [3; k]) =
  match sensor_at l (k - 1) with
  | Some s => Mib.Found Mib.INTEGER (Mib.u_intval (temperature s))
  | None => Mib.Undefined
  end.
Proof.
  unfold MAX_SENSORS. intros Hk HN.
  assert (HN' : N = 1 \/ N = 2 \/ N = 3 \/ N = 4) by lia.
  assert (Hk' : k = 1 \/ k = 2 \/ k = 3 \/ k = 4) by lia.
  destruct HN' as [-> | [-> | [-> | ->]]];
    destruct Hk' as [-> | [-> | [-> | ->]]]; try lia;
    unfold Mib.resolve; vm_compute List.find;
    cbv beta iota zeta delta [Mib.get Mib.invoke Mib.getTemperature Mib.oid_last Mib.oid
                              Mib.set_u Mib.type Mib.u Mib.access Mib.dataLen];
    vm_compute last; cbv beta iota zeta;
    match goal with
    | |- context [int_wrap ?a] =>
        let v := eval vm_compute in (int_wrap a) in change (int_wrap a) with v
    end;
    match goal with
    | |- context [sensor_at l (?a - 1)] =>
        let v := eval vm_compute in (a - 1) in change (a - 1) with v
    end;
    destruct (sensor_at l _); reflexivity.
Qed.

Section WithPlatform.
Context `{Platform}.

Lemma wf_loop t st : wf st -> wf (loop t st).
Proof.
  intros (HN & Hl & Ht & Hc0 & Hc). unfold loop, wf.
  destruct (processLED_frame (processSensors t st)) as (Ls & Ln & Lc & Lt & _).
  rewrite Ls, Ln, Lc, Lt. unfold SENSOR_TICKS, MAX_SENSORS in *.
  destruct (Z.eq_dec (sensorTicks st) 1) as [E1|E1].
  - destruct (Z.eq_dec (numSensors st) 0) as [E0|E0].
    + rewrite processSensors_empty by assumption. cbn. unfold SENSOR_TICKS.
      repeat split; lia.
    + destruct (processSensors_boundary t st) as (Bt & Bn & _ & Bc & Bs & _).
      { exact E1. } { exact E0. } { unfold INT_MIN, INT_MAX. lia. }
      rewrite Bt, Bn, Bc, Bs. unfold stored, SENSOR_TICKS.
      destruct (Z.eqb_spec (currentSensor st + 1) (numSensors st));
        destruct (f32_eqb t DEVICE_DISCONNECTED_C);
        rewrite ?length_store_temperature; repeat split; lia.
  - rewrite processSensors_idle by (unfold SENSOR_TICKS; lia).
    cbn. repeat split; lia.
Qed.

Lemma wf_run ts : forall st, wf st -> wf (run ts st).
Proof.
  induction ts as [|t ts IH]; intros st Hw; [exact Hw|].
  rewrite run_cons. apply IH, wf_loop, Hw.
Qed.

Lemma numSensors_loop t st : wf st -> numSensors (loop t st) = numSensors st.
Proof.
  intros (HN & Hl & Ht & Hc0 & Hc). unfold loop.
  destruct (processLED_frame (processSensors t st)) as (_ & Ln & _).
  rewrite Ln. unfold SENSOR_TICKS, MAX_SENSORS in *.
  destruct (Z.eq_dec (sensorTicks st) 1) as [E1|E1].
  - destruct (Z.eq_dec (numSensors st) 0) as [E0|E0].
    + rewrite processSensors_empty by assumption. reflexivity.
    + destruct (processSensors_boundary t st) as (_ & Bn & _); auto.
      unfold INT_MIN, INT_MAX. lia.
  - rewrite processSensors_idle by (unfold SENSOR_TICKS; lia). reflexivity.
Qed.

Lemma numSensors_run ts : forall st, wf st -> numSensors (run ts st) = numSensors st.
Proof.
  induction ts as [|t ts IH]; intros st Hw; [reflexivity|].
  rewrite run_cons, IH by (apply wf_loop, Hw). apply numSensors_loop, Hw.
Qed.

(** A pass changes the slot [j] of the store only if it ends a cycle in
    which sensor [j] is read and the read succeeds. *)
Lemma loop_keeps_slot t st j :
  wf st ->
  (sensorTicks st = 1 -> currentSensor st = j ->
   f32_eqb t DEVICE_DISCONNECTED_C = true) ->
  sensor_at (sensors (loop t st)) j = sensor_at (sensors st) j.
Proof.
  intros (HN & Hl & Ht & Hc0 & Hc) Hfail. unfold loop.
  destruct (processLED_frame (processSensors t st)) as (Ls & _).
  rewrite Ls. unfold SENSOR_TICKS, MAX_SENSORS in *.
  destruct (Z.eq_dec (sensorTicks st) 1) as [E1|E1].
  - destruct (Z.eq_dec (numSensors st) 0) as [E0|E0].
    + rewrite processSensors_empty by assumption. reflexivity.
    + destruct (processSensors_boundary t st) as (_ & _ & _ & _ & Bs & _); auto.
      { unfold INT_MIN, INT_MAX. lia. }
      rewrite Bs. unfold stored.
      destruct (f32_eqb t DEVICE_DISCONNECTED_C) eqn:Ef; [reflexivity|].
      apply sensor_at_store_temperature_ne. intros Heq.
      specialize (Hfail E1 Heq). discriminate.
  - rewrite processSensors_idle by (unfold SENSOR_TICKS; lia). reflexivity.
Qed.

Lemma run_keeps_slot j ts :
  forall st, wf st ->
  (forall n t, ts !! n = Some t ->
               sensorTicks (run (take n ts) st) = 1 ->
               currentSensor (run (take n ts) st) = j ->
               f32_eqb t DEVICE_DISCONNECTED_C = true) ->
  sensor_at (sensors (run ts st)) j = sensor_at (sensors st) j.
Proof.
  induction ts as [|t ts IH]; intros st Hw Hfail; [reflexivity|].
  rewrite run_cons. rewrite IH.
  - apply loop_keeps_slot; [exact Hw|]. intros E1 Ec.
    apply (Hfail 0%nat t); [reflexivity | exact E1 | exact Ec].
  - apply wf_loop, Hw.
  - intros n t' Hn. apply (Hfail (S n) t'). exact Hn.
Qed.

End WithPlatform.

Lemma wf_initSensors devices : wf (initSensors devices boot).
Proof.
  destruct (initSensors_fresh devices) as (F1 & F2 & F3 & _ & F5 & _).
  pose proof (getDeviceCount_range devices).
  unfold wf. rewrite F1, F2, F3, F5. unfold MAX_SENSORS, SENSOR_TICKS.
  repeat split; lia.
Qed.

Lemma initial_temperature devices k :
  1 <= k <= MAX_SENSORS ->
  exists s, sensor_at (sensors (initSensors devices boot)) (k - 1) = Some s /\
            temperature s = 1111 * k.
Proof.
  intros Hk.
  destruct (initSensors_fresh devices) as (_ & _ & _ & _ & F5 & F6 & _).
  unfold MAX_SENSORS in *.
  destruct (sensors (initSensors devices boot)) as [|s1 [|s2 [|s3 [|s4 [|]]]]];
    try discriminate.
  injection F6 as E1 E2 E3 E4.
  assert (Hk' : k = 1 \/ k = 2 \/ k = 3 \/ k = 4) by lia.
  destruct Hk' as [-> | [-> | [-> | ->]]]; eexists; (split; [reflexivity | assumption]).
Qed.

Section Resolution.
Context `{Platform}.

(** C3.  With the tree built after discovery, the identifier
    [SENSOR_OID.3.k] of any registered sensor [k] (1 to N) ends in [k],
    and at any later moment resolves to the temperature the store holds at
    index [k - 1] at that moment; in particular a temperature the
    scheduler stores in the next pass is what the identifier resolves to
    after that pass. *)
Theorem C3_temperature_oid_reads_the_store_live
    (devices : list (list Z)) (ts : list float32) (k millis : Z) :
  let st0 := initSensors devices boot in
  let tree := Mib.initMibTree (numSensors st0) in
  let id := Mib.SENSOR_OID ++ [3; k] in
  let st := run ts st0 in
  1 <= k <= numSensors st0 ->
  last id = Some k /\
  (exists s, sensor_at (sensors st) (k - 1) = Some s /\
             Mib.resolve tree millis (sensors st) id
             = Mib.Found Mib.INTEGER (Mib.u_intval (temperature s))) /\
  (forall t, sensorTicks st = 1 -> currentSensor st = k - 1 ->
             f32_eqb t DEVICE_DISCONNECTED_C = false ->
             Mib.resolve tree millis (sensors (loop t st)) id
             = Mib.Found Mib.INTEGER (Mib.u_intval (f32_to_int (f32_mul t f32_ten)))).
Proof.
  cbv zeta. intros Hk.
  set (st0 := initSensors devices boot) in *.
  set (st := run ts st0).
  assert (Hw0 : wf st0) by apply wf_initSensors.
  assert (Hw : wf st) by (apply wf_run, Hw0).
  pose proof Hw0 as (HN0 & _). pose proof Hw as (HN & Hl & Ht & Hc0 & Hc).
  assert (HNeq : numSensors st = numSensors st0) by (apply numSensors_run, Hw0).
  assert (Hslot : forall l : list sensorType, length l = Z.to_nat MAX_SENSORS ->
                  exists s, sensor_at l (k - 1) = Some s).
  { intros l Hlen. unfold sensor_at, MAX_SENSORS in *.
    destruct (Z.leb_spec 0 (k - 1)); [|lia].
    apply lookup_lt_is_Some_2. lia. }
  split; [reflexivity|]. split.
  - destruct (Hslot (sensors st) Hl) as (s & Hs). exists s. split; [exact Hs|].
    rewrite resolve_temperature by lia. rewrite Hs. reflexivity.
  - intros t E1 Ec Hok.
    rewrite resolve_temperature by lia.
    unfold loop. destruct (processLED_frame (processSensors t st)) as (Ls & _).
    rewrite Ls.
    destruct (processSensors_boundary t st) as (_ & _ & _ & _ & Bs & _).
    { exact E1. } { lia. } { unfold INT_MIN, INT_MAX, MAX_SENSORS in *. lia. }
    rewrite Bs. unfold stored. rewrite Hok, Ec.
    destruct (Hslot (sensors st) Hl) as (s & Hs).
    rewrite (sensor_at_store_temperature_eq _ _ _ s Hs). reflexivity.
Qed.

(** C10.  As long as no read of sensor [k] has succeeded, the identifier
    [SENSOR_OID.3.k] of a registered sensor resolves to the value the
    array [sensors] is initialised with for that slot, 1111 * k: this is
    positive, hence neither zero nor the (negative) value of a
    disconnected sensor. *)
Theorem C10_placeholder_until_first_successful_read
    (devices : list (list Z)) (ts : list float32) (k millis : Z) :
  let st0 := initSensors devices boot in
  1 <= k <= numSensors st0 ->
  (forall n t, ts !! n = Some t ->
               sensorTicks (run (take n ts) st0) = 1 ->
               currentSensor (run (take n ts) st0) = k - 1 ->
               f32_eqb t DEVICE_DISCONNECTED_C = true) ->
  Mib.resolve (Mib.initMibTree (numSensors st0)) millis (sensors (run ts st0))
              (Mib.SENSOR_OID ++ [3; k])
  = Mib.Found Mib.INTEGER (Mib.u_intval (1111 * k)) /\
  0 < 1111 * k.
Proof.
  cbv zeta. intros Hk Hfail.
  set (st0 := initSensors devices boot) in *.
  assert (Hw0 : wf st0) by apply wf_initSensors.
  pose proof Hw0 as (HN0 & _).
  split; [|lia].
  rewrite resolve_temperature by lia.
  rewrite (run_keeps_slot (k - 1) ts st0 Hw0 Hfail).
  destruct (initial_temperature devices k) as (s & Hs & HV); [lia|].
  fold st0 in Hs. rewrite Hs, HV. reflexivity.
Qed.

End Resolution.

Lemma C3_witness :
  let devices := [[40;1;2;3;4;5;6;7]; [40;9;9;9;9;9;9;9]] in
  let st := run (replicate 75 t_20_0625) (initSensors devices boot) in
  1 <= 1 <= numSensors (initSensors devices boot) /\
  exists s, sensor_at (sensors st) (1 - 1) = Some s /\
            Mib.resolve (Mib.initMibTree (numSensors (initSensors devices boot))) 0
                        (sensors st) (Mib.SENSOR_OID ++ [3; 1])
            = Mib.Found Mib.INTEGER (Mib.u_intval (temperature s)).
Proof.
  intros devices st.
  assert (Hk : 1 <= 1 <= numSensors (initSensors devices boot)) by evaluate.
  split; [exact Hk|].
  exact (proj1 (proj2 (C3_temperature_oid_reads_the_store_live
                         devices (replicate 75 t_20_0625) 1 0 Hk))).
Defined.

Lemma C10_witness :
  let devices := [[40;1;2;3;4;5;6;7]; [40;9;9;9;9;9;9;9]] in
  let ts := replicate 120 (f32_of_int (-127)) in
  1 <= 2 <= numSensors (initSensors devices boot) /\
  Mib.resolve (Mib.initMibTree (numSensors (initSensors devices boot))) 0
              (sensors (run ts (initSensors devices boot))) (Mib.SENSOR_OID ++ [3; 2])
  = Mib.Found Mib.INTEGER (Mib.u_intval (1111 * 2)).
Proof.
  intros devices ts.
  assert (Hk : 1 <= 2 <= numSensors (initSensors devices boot)) by evaluate.
  split; [exact Hk|].
  refine (proj1 (C10_placeholder_until_first_successful_read devices ts 2 0 Hk _)).
  intros n t Hn _ _. apply lookup_replicate in Hn as [-> _]. reflexivity.
Defined.

End SchedulerFacts.

Module ConfigFacts.
Import Config Scenarios.


(** The copy loop of [getConfig] fills [eepromData] with the stored image. *)
Lemma getConfig_loop_copies (f : Z -> Z) :
  getConfig_loop sizeof_eepromData 0 (Z.to_nat sizeof_eepromData)
    (println "Reading bytes from EEPROM"
       (set_EEPROM (EEPROM_begin sizeof_eepromData (EEPROM (boot f))) (boot f)))
  = mkState (stored_image f) (EEPROM_begin sizeof_eepromData (mkEeprom f [] 0))
            ["Reading bytes from EEPROM"%string].
Proof.
  unfold stored_image, EEPROM_begin, boot, println, set_EEPROM.
  cbn [flash commits EEPROM eepromData serial].
  generalize (fun a => f a mod 256). intros g.
  vm_compute. reflexivity.
Qed.

(** A list of two hundred bytes, spelled out. *)
Lemma stored_image_length f : length (stored_image f) = 200%nat.
Proof. unfold stored_image. rewrite length_map, length_seqZ. reflexivity. Qed.

Lemma defaults_in_any_record (d : list Z) :
  length d = 200%nat ->
  let d' := poke_ushort off_dataValid EEPROM_VALID
              (strcpy off_roCommunity RO_COMMUNITY
                 (strcpy off_staPSK DEFAULT_PSK
                    (strcpy off_staSSID DEFAULT_SSID
                       (poke_int off_eepromSize sizeof_eepromData d)))) in
  cstr_at d' off_staSSID = DEFAULT_SSID /\
  cstr_at d' off_staPSK = DEFAULT_PSK /\
  cstr_at d' off_roCommunity = RO_COMMUNITY /\
  peek_int d' off_eepromSize = sizeof_eepromData /\
  peek_ushort d' off_dataValid = EEPROM_VALID /\
  length d' = 200%nat.
Proof.
  intros Hlen.
  do 200 (destruct d as [|? d]; [discriminate Hlen|]).
  destruct d; [|discriminate Hlen].
  vm_compute. repeat split; reflexivity.
Qed.

(** C4.  [getConfig] keeps the stored record, byte for byte, exactly when
    its size field equals the size of the record and its marker is the
    expected one; for every other stored record the three strings are the
    compiled-in defaults, all three of them, and size and marker are set. *)
Theorem C4_stored_record_or_all_defaults (f : Z -> Z) :
  let st := getConfig (boot f) in
  if stored_valid f then
    eepromData st = stored_image f
  else
    staSSID st = DEFAULT_SSID /\ staPSK st = DEFAULT_PSK /\
    roCommunity st = RO_COMMUNITY /\
    peek_int (eepromData st) off_eepromSize = sizeof_eepromData /\
    peek_ushort (eepromData st) off_dataValid = EEPROM_VALID.
Proof.
  cbv zeta. unfold getConfig.
  rewrite getConfig_loop_copies. cbn [eepromData].
  unfold stored_valid.
  destruct ((peek_int (stored_image f) off_eepromSize =? sizeof_eepromData)
            && (peek_ushort (stored_image f) off_dataValid =? EEPROM_VALID)).
  - reflexivity.
  - unfold staSSID, staPSK, roCommunity.
    cbn [set_eepromData println eepromData EEPROM serial].
    destruct (defaults_in_any_record (stored_image f) (stored_image_length f))
      as (H1 & H2 & H3 & H4 & H5 & _).
    repeat split; assumption.
Qed.

Lemma int_wrap_eq_200 b0 b1 b2 b3 :
  0 <= b0 < 256 -> 0 <= b1 < 256 -> 0 <= b2 < 256 -> 0 <= b3 < 256 ->
  int_wrap (b0 + 256 * b1 + 65536 * b2 + 16777216 * b3) = 200 ->
  b0 = 200 /\ b1 = 0 /\ b2 = 0 /\ b3 = 0.
Proof.
  unfold int_wrap. change (2 ^ 31) with 2147483648. change (2 ^ 32) with 4294967296.
  intros H0 H1 H2 H3 E.
  pose proof (Z.mod_pos_bound (b0 + 256 * b1 + 65536 * b2 + 16777216 * b3 + 2147483648)
                4294967296 ltac:(lia)) as Hb.
  pose proof (Z.div_mod (b0 + 256 * b1 + 65536 * b2 + 16777216 * b3 + 2147483648)
                4294967296 ltac:(lia)) as Hd.
  lia.
Qed.

(** Whatever the flash holds, [getConfig] leaves a record of 200 bytes
    that starts with its own size. *)
Lemma getConfig_shape (f : Z -> Z) :
  exists rest img log,
    length rest = 196%nat /\ length img = 200%nat /\
    getConfig (Config.boot f) = Config.mkState (200 :: 0 :: 0 :: 0 :: rest) (mkEeprom f img 0) log.
Proof.
  unfold getConfig. rewrite getConfig_loop_copies.
  cbn [eepromData set_eepromData println EEPROM serial].
  assert (Himg : exists b0 b1 b2 b3 rest,
             stored_image f = b0 :: b1 :: b2 :: b3 :: rest /\ length rest = 196%nat /\
             0 <= b0 < 256 /\ 0 <= b1 < 256 /\ 0 <= b2 < 256 /\ 0 <= b3 < 256).
  { unfold stored_image.
    assert (Hg : forall a, 0 <= (fun a => f a mod 256) a < 256)
      by (intros a; apply Z.mod_pos_bound; lia).
    revert Hg. generalize (fun a => f a mod 256). intros g Hg.
    exists (g 0), (g 1), (g 2), (g 3), (map g (seqZ 4 196)).
    split; [reflexivity|]. split; [rewrite length_map, length_seqZ; reflexivity|].
    repeat split; apply Hg. }
  destruct Himg as (b0 & b1 & b2 & b3 & rest & Himg & Hrest & R0 & R1 & R2 & R3).
  destruct ((peek_int (stored_image f) off_eepromSize =? sizeof_eepromData)
            && (peek_ushort (stored_image f) off_dataValid =? EEPROM_VALID)) eqn:Hv.
  - apply andb_prop in Hv as [Hsz _]. apply Z.eqb_eq in Hsz.
    rewrite Himg in Hsz. unfold peek_int, byte_at, off_eepromSize in Hsz.
    cbn [lookup list_lookup Nat.add default] in Hsz.
    destruct (int_wrap_eq_200 b0 b1 b2 b3 R0 R1 R2 R3 Hsz) as (-> & -> & -> & ->).
    exists rest, (stored_image f), ["Reading bytes from EEPROM"; "  Found valid configuration"]%string.
    split; [exact Hrest|]. split; [apply stored_image_length|].
    cbn [EEPROM_begin]. unfold EEPROM_begin. cbn [flash commits].
    rewrite Himg at 1. reflexivity.
  - pose proof (stored_image_length f) as Hlen.
    unfold EEPROM_begin. cbn [flash commits]. fold (stored_image f).
    generalize dependent (stored_image f). intros d _ _ Hlen.
    do 200 (destruct d as [|? d]; [discriminate Hlen|]).
    destruct d; [|discriminate Hlen].
    eexists _, _, _. split; [|split; [|vm_compute; reflexivity]]; reflexivity.
Qed.


(** The copy loop of [saveConfig] writes the bytes [a .. n - 1] of the
    record, [n] being the size the record declares. *)
Lemma saveConfig_loop_spec fuel :
  forall a st,
    0 <= a ->
    a + Z.of_nat fuel = peek_int (eepromData st) off_eepromSize ->
    peek_int (eepromData st) off_eepromSize <= Z.of_nat (length (data (EEPROM st))) ->
    let st' := saveConfig_loop a fuel st in
    eepromData st' = eepromData st /\
    flash (EEPROM st') = flash (EEPROM st) /\
    commits (EEPROM st') = commits (EEPROM st) /\
    length (data (EEPROM st')) = length (data (EEPROM st)) /\
    forall i : nat,
      data (EEPROM st') !! i =
      if (Z.to_nat a <=? i)%nat
         && (i <? Z.to_nat (peek_int (eepromData st) off_eepromSize))%nat
      then Some (byte_at (eepromData st) i) else data (EEPROM st) !! i.
Proof.
  induction fuel as [|fuel IH]; intros a st Ha Hn Hlen; cbn zeta.
  - cbn [saveConfig_loop]. repeat split. intros i.
    destruct (Nat.leb_spec (Z.to_nat a) i),
      (Nat.ltb_spec i (Z.to_nat (peek_int (eepromData st) off_eepromSize)));
      try reflexivity; lia.
  - cbn [saveConfig_loop].
    destruct (Z.ltb_spec a (peek_int (eepromData st) off_eepromSize)) as [Hlt|]; [|lia].
    set (st1 := set_EEPROM _ st).
    assert (Hw : data (EEPROM st1)
                 = <[Z.to_nat a := byte_at (eepromData st) (Z.to_nat a)]> (data (EEPROM st))
                 /\ flash (EEPROM st1) = flash (EEPROM st)
                 /\ commits (EEPROM st1) = commits (EEPROM st)).
    { subst st1. cbn [EEPROM set_EEPROM]. unfold EEPROM_write.
      destruct (Z.leb_spec 0 a); [|lia].
      destruct (Z.ltb_spec a (Z.of_nat (length (data (EEPROM st))))); [|lia].
      cbn. repeat split. }
    destruct Hw as (Hd & Hf & Hc).
    assert (He : eepromData st1 = eepromData st) by reflexivity.
    destruct (IH (a + 1) st1) as (I1 & I2 & I3 & I4 & I5).
    { lia. } { rewrite He. lia. } { rewrite He, Hd, length_insert. exact Hlen. }
    rewrite I1, I2, I3, I4, He, Hf, Hc, Hd, length_insert.
    repeat split. intros i. rewrite I5, He, Hd.
    destruct (Nat.leb_spec (Z.to_nat (a + 1)) i), (Nat.leb_spec (Z.to_nat a) i),
      (Nat.ltb_spec i (Z.to_nat (peek_int (eepromData st) off_eepromSize)));
      cbn [andb]; try lia; try reflexivity.
    + rewrite list_lookup_insert_ne by lia. reflexivity.
    + assert (i = Z.to_nat a) by lia. subst i.
      rewrite list_lookup_insert_eq by lia. reflexivity.
    + rewrite list_lookup_insert_ne by lia. reflexivity.
Qed.

(** [saveConfig] on a record that declares its own length copies it whole
    into the EEPROM buffer and commits the buffer to the flash. *)
Lemma saveConfig_persists st :
  peek_int (eepromData st) off_eepromSize = Z.of_nat (length (eepromData st)) ->
  length (data (EEPROM st)) = length (eepromData st) ->
  eepromData (Config.saveConfig st) = eepromData st /\
  data (EEPROM (Config.saveConfig st)) = eepromData st /\
  commits (EEPROM (Config.saveConfig st)) = S (commits (EEPROM st)) /\
  forall a, 0 <= a < Z.of_nat (length (eepromData st)) ->
            flash (EEPROM (Config.saveConfig st)) a = byte_at (eepromData st) (Z.to_nat a).
Proof.
  intros Hn Hlen. unfold Config.saveConfig.
  set (st0 := println _ st).
  assert (E0 : eepromData st0 = eepromData st) by reflexivity.
  assert (E1 : EEPROM st0 = EEPROM st) by reflexivity.
  destruct (saveConfig_loop_spec
              (Z.to_nat (peek_int (eepromData st0) off_eepromSize)) 0 st0)
    as (I1 & I2 & I3 & I4 & I5).
  { lia. } { rewrite E0, Hn. lia. } { rewrite E0, E1, Hn, Hlen. lia. }
  rewrite E0, E1 in *.
  assert (Hdata : data (EEPROM (saveConfig_loop 0
                    (Z.to_nat (peek_int (eepromData st) off_eepromSize)) st0))
                  = eepromData st).
  { apply list_eq. intros i. rewrite I5, Hn, Nat2Z.id. cbn [Z.to_nat Nat.leb andb].
    destruct (Nat.ltb_spec i (length (eepromData st))) as [Hlt|Hge].
    - unfold byte_at. destruct (lookup_lt_is_Some_2 (eepromData st) i Hlt) as (x & ->).
      reflexivity.
    - rewrite (lookup_ge_None_2 (eepromData st)) by lia.
      apply lookup_ge_None_2. lia. }
  cbn [set_EEPROM eepromData EEPROM EEPROM_commit data commits flash].
  rewrite I1, I3, Hdata. repeat split.
  intros a Ha.
  destruct (Z.leb_spec 0 a); [|lia].
  destruct (Z.ltb_spec a (Z.of_nat (length (eepromData st)))); [|lia].
  reflexivity.
Qed.

Lemma strings_in_any_record (rest : list Z) :
  length rest = 196%nat ->
  let d := eepromData
             (with_strings (bytes_of_string "MyNet") (bytes_of_string "Secret")
                (bytes_of_string "public")
                (Config.mkState (200 :: 0 :: 0 :: 0 :: rest) (mkEeprom (fun _ => 0) [] 0) [])) in
  cstr_at d off_staSSID = bytes_of_string "MyNet" /\
  cstr_at d off_staPSK = bytes_of_string "Secret" /\
  cstr_at d off_roCommunity = bytes_of_string "public" /\
  peek_int d off_eepromSize = 200 /\
  length d = 200%nat.
Proof.
  intros Hlen.
  do 196 (destruct rest as [|? rest]; [discriminate Hlen|]).
  destruct rest; [|discriminate Hlen].
  vm_compute. repeat split; reflexivity.
Qed.

End ConfigFacts.

Module HttpFacts.
Import Config Http Scenarios ConfigFacts.

Lemma store_httpRequest_in_bounds urlPtr c st :
  (urlPtr < sizeof_httpRequest)%nat ->
  store_httpRequest urlPtr c st =
  Ok (tt, mkState (config st) (<[urlPtr := c]> (httpRequest st)) (httpParams st)
                  (strtok_last st) (trace st)).
Proof.
  intros Hlt. unfold store_httpRequest, bind, gets, set_httpRequest, modify.
  destruct (Nat.ltb_spec urlPtr sizeof_httpRequest); [reflexivity | lia].
Qed.

Lemma store_httpRequest_out_of_bounds urlPtr c st :
  (sizeof_httpRequest <= urlPtr)%nat ->
  store_httpRequest urlPtr c st = Fault (OutOfBounds "httpRequest" (Z.of_nat urlPtr)).
Proof.
  intros Hge. unfold store_httpRequest, bind, gets, fail.
  destruct (Nat.ltb_spec urlPtr sizeof_httpRequest); [lia | reflexivity].
Qed.

(** While there is room, both readers append the bytes that arrive and
    move [urlPtr] on. *)
Lemma httpWebServer_client_appends now bytes rest :
  Forall plain bytes ->
  forall urlPtr ms st,
    (urlPtr + length bytes <= sizeof_httpRequest)%nat ->
    exists ms' st',
      httpWebServer_client (arriving now bytes ++ rest) urlPtr ms st
      = httpWebServer_client rest (urlPtr + length bytes) ms' st'.
Proof.
  induction 1 as [|c bytes [Hc1 Hc2] _ IH]; intros urlPtr ms st Hroom.
  - exists ms, st. cbn. rewrite Nat.add_0_r. reflexivity.
  - cbn [arriving map app httpWebServer_client incoming millis length] in *.
    destruct (Z.eqb_spec c 10); [contradiction|].
    destruct (Z.eqb_spec c 13); [contradiction|]. cbn [negb].
    unfold bind at 1. rewrite store_httpRequest_in_bounds by lia.
    edestruct IH as (ms' & st' & E); [|rewrite E; exists ms', st'; f_equal; lia].
    cbn [length] in Hroom. lia.
Qed.

Lemma httpStatusGetRequest_loop_appends sens now bytes rest :
  Forall plain bytes ->
  forall urlPtr ms st,
    (urlPtr + length bytes <= sizeof_httpRequest)%nat ->
    exists ms' st',
      httpStatusGetRequest_loop sens (arriving now bytes ++ rest) urlPtr ms st
      = httpStatusGetRequest_loop sens rest (urlPtr + length bytes) ms' st'.
Proof.
  induction 1 as [|c bytes [Hc1 Hc2] _ IH]; intros urlPtr ms st Hroom.
  - exists ms, st. cbn. rewrite Nat.add_0_r. reflexivity.
  - cbn [arriving map app httpStatusGetRequest_loop incoming millis length] in *.
    destruct (Z.eqb_spec c 10); [contradiction|].
    destruct (Z.eqb_spec c 13); [contradiction|]. cbn [negb].
    unfold bind at 1. rewrite store_httpRequest_in_bounds by lia.
    edestruct IH as (ms' & st' & E); [|rewrite E; exists ms', st'; f_equal; lia].
    cbn [length] in Hroom. lia.
Qed.

(** C6, at the failing input.  A line of 255 bytes other than carriage
    return and newline fills [httpRequest]; both readers then store the
    terminating NUL of the line, or a 256th byte of it, at
    [httpRequest[255]], which is outside the array. *)
Theorem C6_full_line_is_stored_past_the_buffer
    (sens : Sensors.state) (now start : Z) (bytes : list Z) (c : Z)
    (rest : list poll) (st : state) :
  Forall plain bytes ->
  length bytes = sizeof_httpRequest ->
  c <> 13 ->
  httpWebServer start [arriving now (bytes ++ [c]) ++ rest] st
    = Fault (OutOfBounds "httpRequest" 255) /\
  httpStatusGetRequest sens start (arriving now (bytes ++ [c]) ++ rest) st
    = Fault (OutOfBounds "httpRequest" 255).
Proof.
  intros Hplain Hlen Hc.
  unfold arriving. rewrite map_app, <- app_assoc. fold (arriving now bytes).
  split.
  - unfold httpWebServer, bind at 1. cbn [emit modify].
    cbn [httpWebServer_clients]. unfold bind at 1.
    edestruct (httpWebServer_client_appends now bytes) as (ms' & st' & E);
      [exact Hplain | | rewrite E].
    { rewrite Hlen. cbn. lia. }
    rewrite Hlen. cbn [map app httpWebServer_client incoming millis Nat.add].
    change (0 + sizeof_httpRequest)%nat with 255%nat.
    destruct (Z.eqb_spec c 10) as [->|Hn].
    + unfold end_of_line, bind.
      rewrite store_httpRequest_out_of_bounds by (unfold sizeof_httpRequest; lia).
      reflexivity.
    + destruct (Z.eqb_spec c 13); [contradiction|]. cbn [negb]. unfold bind.
      rewrite store_httpRequest_out_of_bounds by (unfold sizeof_httpRequest; lia).
      reflexivity.
  - unfold httpStatusGetRequest, bind at 1. cbn [emit modify]. unfold bind at 1.
    edestruct (httpStatusGetRequest_loop_appends sens now bytes) as (ms' & st' & E);
      [exact Hplain | | rewrite E].
    { rewrite Hlen. cbn. lia. }
    rewrite Hlen. cbn [map app httpStatusGetRequest_loop incoming millis Nat.add].
    change (0 + sizeof_httpRequest)%nat with 255%nat.
    destruct (Z.eqb_spec c 10) as [->|Hn].
    + unfold end_of_line, bind.
      rewrite store_httpRequest_out_of_bounds by (unfold sizeof_httpRequest; lia).
      reflexivity.
    + destruct (Z.eqb_spec c 13); [contradiction|]. cbn [negb]. unfold bind.
      rewrite store_httpRequest_out_of_bounds by (unfold sizeof_httpRequest; lia).
      reflexivity.
Qed.

Lemma ulong_wrap_small x : 0 <= x < 2 ^ 32 -> ulong_wrap x = x.
Proof. intros Hx. unfold ulong_wrap. apply Z.mod_small. exact Hx. Qed.

Lemma ulong_wrap_negative x : - 2 ^ 32 <= x < 0 -> ulong_wrap x = x + 2 ^ 32.
Proof.
  intros Hx. unfold ulong_wrap.
  rewrite <- (Z.mod_add x 1 (2 ^ 32)) by lia.
  rewrite Z.mul_1_l. apply Z.mod_small. lia.
Qed.

(** C5, at the failing input.  A client of the configuration server that
    has sent nothing is hung up on as timed out in the first pass that sees
    the clock ahead of [ms], one millisecond being enough, because the
    difference is taken as [ms - millis ()]; the status server, which takes
    [millis () - ms], passes over the same idle pass and keeps the
    connection. *)
Theorem C5_config_server_times_out_before_two_seconds
    (sens : Sensors.state) (start now : Z) (rest : list poll) (st : state) :
  0 <= start -> start < now -> now <= start + 2000 -> now < 2 ^ 32 ->
  httpWebServer start [mkPoll now None :: rest] st
    = Ok (start,
          mkState (config st) (httpRequest st) (httpParams st) (strtok_last st)
                  (trace st ++ [Serial_text "  Starting webserver..."]
                            ++ [Serial_text "HTTP idle timeout"] ++ [Client_stop]
                            ++ [Serial_text "Disconnected"])) /\
  httpStatusGetRequest sens start (mkPoll now None :: rest) st
    = httpStatusGetRequest sens start rest st.
Proof.
  intros H0 Hlt Hle Hmax.
  assert (Es : ulong_wrap start = start) by (apply ulong_wrap_small; lia).
  assert (En : ulong_wrap now = now) by (apply ulong_wrap_small; lia).
  split.
  - unfold httpWebServer, bind at 1. cbn [emit modify httpWebServer_clients].
    unfold bind at 1. cbn [httpWebServer_client incoming millis].
    rewrite Es, En, ulong_wrap_negative by lia.
    destruct (Z.gtb_spec (start - now + 2 ^ 32) 2000) as [_|]; [|lia].
    unfold idle_timeout, bind, emit, modify, ret. cbn.
    rewrite <- !app_assoc. reflexivity.
  - unfold httpStatusGetRequest, bind at 1. cbn [emit modify].
    unfold bind at 1 3. cbn [httpStatusGetRequest_loop incoming millis].
    rewrite Es, En, ulong_wrap_small by lia.
    destruct (Z.gtb_spec (now - start) 2000) as [|_]; [lia|]. reflexivity.
Qed.

(** The status server hangs up on a client that has been silent for more
    than two seconds, without serving anything. *)
Lemma status_server_times_out_after_two_seconds
    (sens : Sensors.state) (start now : Z) (rest : list poll) (st : state) :
  0 <= start -> start + 2000 < now -> now < 2 ^ 32 ->
  httpStatusGetRequest sens start (mkPoll now None :: rest) st
    = Ok (tt,
          mkState (config st) (httpRequest st) (httpParams st) (strtok_last st)
                  (trace st ++ [Serial_text "Client connected to webserver"]
                            ++ [Serial_text "HTTP idle timeout"] ++ [Client_stop]
                            ++ [Serial_text "Disconnected"])).
Proof.
  intros H0 Hlt Hmax.
  unfold httpStatusGetRequest, bind at 1. cbn [emit modify].
  unfold bind at 1. cbn [httpStatusGetRequest_loop incoming millis].
  rewrite (ulong_wrap_small start), (ulong_wrap_small now),
    (ulong_wrap_small (now - start)) by lia.
  destruct (Z.gtb_spec (now - start) 2000) as [_|]; [|lia].
  unfold idle_timeout, bind, emit, modify, ret. cbn.
  rewrite <- !app_assoc. reflexivity.
Qed.

Lemma C5_witness :
  (0 <= 5000 /\ 5000 < 5001 /\ 5001 <= 5000 + 2000 /\ 5001 < 2 ^ 32) /\
  timed_out (trace (match httpWebServer 5000 [[mkPoll 5001 None]] (boot (fun _ => 0)) with
                    | Ok (_, st) => st
                    | Fault _ => boot (fun _ => 0)
                    end)) = true /\
  httpStatusGetRequest Sensors.boot 5000 [mkPoll 5001 None] (boot (fun _ => 0))
    = httpStatusGetRequest Sensors.boot 5000 [] (boot (fun _ => 0)).
Proof.
  assert (H : 0 <= 5000 /\ 5000 < 5001 /\ 5001 <= 5000 + 2000 /\ 5001 < 2 ^ 32) by lia.
  split; [exact H|].
  destruct H as (H0 & H1 & H2 & H3).
  destruct (C5_config_server_times_out_before_two_seconds
              Sensors.boot 5000 5001 [] (boot (fun _ => 0)) H0 H1 H2 H3) as (E1 & E2).
  split; [rewrite E1; reflexivity | exact E2].
Defined.

Lemma C6_witness :
  (Forall plain (replicate 255 65) /\
   length (replicate 255 65) = sizeof_httpRequest /\ 10 <> 13) /\
  httpWebServer 0 [arriving 0 (replicate 255 65 ++ [10]) ++ []] (boot (fun _ => 0))
    = Fault (OutOfBounds "httpRequest" 255).
Proof.
  assert (H : Forall plain (replicate 255 65) /\
              length (replicate 255 65) = sizeof_httpRequest /\ 10 <> 13).
  { split; [|split; [reflexivity | lia]].
    apply Forall_replicate. split; lia. }
  split; [exact H|].
  destruct H as (H1 & H2 & H3).
  exact (proj1 (C6_full_line_is_stored_past_the_buffer
                  Sensors.boot 0 0 (replicate 255 65) 10 [] (boot (fun _ => 0)) H1 H2 H3)).
Defined.

(** Serving the request of the scenario copies the three values into the
    record and saves it, whatever the record held before. *)
Lemma save_request_served cfg start now line :
  line = save_request_line \/ line = save_request_line_http ->
  served_by
    (Config.saveConfig
       (with_strings (bytes_of_string "MyNet") (bytes_of_string "Secret")
                     (bytes_of_string "public") cfg))
    (httpWebServer start [arriving now line]
       (mkState cfg (replicate sizeof_httpRequest 0)
                (replicate sizeof_httpParams None) None [])).
Proof.
  intros [-> | ->];
    lazy -[Config.saveConfig Config.strcpy Config.set_eepromData eepromData EEPROM serial
           ulong_wrap with_strings];
    unfold with_strings; reflexivity.
Qed.

(** C8.  When a client of the configuration server delivers the request
    line for /config.html with ssid=MyNet, password=Secret and
    community=public, bare or followed by the protocol version as a
    browser sends it, the request is served: afterwards the record in
    memory holds "MyNet", "Secret" and "public", and [saveConfig] has
    written the whole record to the EEPROM and committed it. *)
Theorem C8_config_request_sets_and_saves (f : Z -> Z) (start now : Z) :
  saved_MyNet (httpWebServer start [arriving now save_request_line] (configured f)) /\
  saved_MyNet (httpWebServer start [arriving now save_request_line_http] (configured f)).
Proof.
  assert (Hboth : forall line,
            line = save_request_line \/ line = save_request_line_http ->
            saved_MyNet (httpWebServer start [arriving now line] (configured f))).
  { intros line Hline. unfold configured.
    destruct (getConfig_shape f) as (rest & img & log & Hrest & Himg & ->).
    pose proof (save_request_served
                  (Config.mkState (200 :: 0 :: 0 :: 0 :: rest) (mkEeprom f img 0) log)
                  start now line Hline) as Hs.
    destruct (httpWebServer start [arriving now line] _) as [[ms st]|]; [|contradiction].
    cbn [served_by] in Hs.
    destruct (strings_in_any_record rest Hrest) as (S1 & S2 & S3 & S4 & S5).
    cbn [with_strings eepromData set_eepromData] in S1, S2, S3, S4, S5.
    destruct (saveConfig_persists
                (with_strings (bytes_of_string "MyNet") (bytes_of_string "Secret")
                   (bytes_of_string "public")
                   (Config.mkState (200 :: 0 :: 0 :: 0 :: rest) (mkEeprom f img 0) log)))
      as (P1 & P2 & P3 & P4).
    { cbn [with_strings eepromData set_eepromData]. rewrite S4, S5. reflexivity. }
    { cbn [with_strings eepromData set_eepromData EEPROM data]. rewrite S5. exact Himg. }
    exists ms, st. split; [reflexivity|].
    unfold staSSID, staPSK, roCommunity. rewrite Hs, P1, P2, P3.
    cbn [with_strings eepromData set_eepromData EEPROM commits].
    repeat split; try assumption.
    intros a Ha. rewrite P4; [reflexivity|].
    cbn [with_strings eepromData set_eepromData]. rewrite S5.
    unfold sizeof_eepromData in Ha. lia. }
  split; apply Hboth; [left | right]; reflexivity.
Qed.
End HttpFacts.

(** ** More on discovery, the scheduler and the LED *)

Module SchedulerMore.
Import Sensors SchedulerInv SchedulerFacts.

(** X1.  Discovery keeps the first [MAX_SENSORS] devices: the count is the
    driver's count cut at four, the first [numSensors] slots hold the
    addresses in bus order, the other slots and all temperatures are as
    initialised, the cursor is 0 and the countdown is full. *)
Theorem initSensors_truncates_to_capacity (devices : list (list Z)) :
  let st := initSensors devices boot in
  numSensors st = Z.min (getDeviceCount devices) MAX_SENSORS /\
  currentSensor st = 0 /\ sensorTicks st = SENSOR_TICKS /\
  length (sensors st) = Z.to_nat MAX_SENSORS /\
  map temperature (sensors st) = [1111; 2222; 3333; 4444] /\
  forall i, 0 <= i < MAX_SENSORS ->
            sensor_addr (sensors st) i =
            if i <? numSensors st then nth (Z.to_nat i) devices no_addr else no_addr.
Proof.
  cbv zeta.
  destruct (initSensors_fresh devices) as (F1 & F2 & F3 & _ & F5 & F6 & F7).
  repeat split; try assumption.
  intros i Hi. destruct (Z.ltb_spec i (numSensors (initSensors devices boot))) as [Hlt|Hge].
  - apply F7. lia.
  - pose proof (getDeviceCount_range devices) as Hd.
    revert Hge. rewrite F1. clear F1 F2 F3 F5 F6 F7.
    unfold initSensors. cbv zeta.
    cbn [numSensors emit set_numSensors set_currentSensor set_sensorTicks].
    unfold MAX_SENSORS in *. intros Hge.
    destruct (Z.ltb_spec 4 (getDeviceCount devices)) as [Hgt|Hle];
      cbn [numSensors emit set_numSensors set_currentSensor set_sensorTicks];
      match goal with
      | |- context [initSensors_loop devices 0 ?f ?s] =>
          destruct (initSensors_loop_spec devices f 0 s ltac:(lia)) as (_ & _ & _ & _ & _ & _ & I7)
      end;
      rewrite I7;
      cbn [numSensors emit set_numSensors set_currentSensor set_sensorTicks sensors boot length];
      change (Z.of_nat 4) with 4;
      repeat match goal with
             | |- context [Z.leb ?a ?b] => destruct (Z.leb_spec a b); try lia
             | |- context [Z.ltb ?a ?b] => destruct (Z.ltb_spec a b); try lia
             end.
    all: assert (Hi' : i = 0 \/ i = 1 \/ i = 2 \/ i = 3) by lia;
      destruct Hi' as [-> | [-> | [-> | ->]]]; reflexivity.
Qed.

Lemma addr_store_temperature i v l : map addr (store_temperature i v l) = map addr l.
Proof.
  unfold store_temperature, sensor_at.
  destruct (Z.leb_spec 0 i); [|reflexivity].
  destruct (l !! Z.to_nat i) as [s|] eqn:E; [|reflexivity].
  change (map addr) with (fmap (M:=list) addr).
  rewrite list_fmap_insert. cbn. apply list_insert_id.
  rewrite list_lookup_fmap, E. reflexivity.
Qed.

(** One call of [processLED] while the timer runs. *)
Lemma processLED_led st :
  0 < ledTicks st <= INT_MAX ->
  ledTicks (processLED st) = ledTicks st - 1 /\
  led_writes (trace (processLED st)) =
    led_writes (trace st) ++ (if ledTicks st =? 1 then [HIGH] else []) /\
  sensorTicks (processLED st) = sensorTicks st.
Proof.
  intros Hl. unfold processLED.
  destruct (Z.eqb_spec (ledTicks st) 0); [lia|].
  rewrite int_wrap_small by (unfold INT_MIN, INT_MAX in *; lia).
  cbn [ledTicks set_ledTicks].
  destruct (Z.eqb_spec (ledTicks st - 1) 0), (Z.eqb_spec (ledTicks st) 1); try lia;
    cbn [ledOff emit ledTicks set_ledTicks trace sensorTicks];
    rewrite ?led_writes_snoc, ?app_nil_r; repeat split.
Qed.

Lemma iter_processLED k : forall st,
  0 <= ledTicks st <= INT_MAX ->
  led_writes (trace (Nat.iter k processLED st)) =
    led_writes (trace st)
      ++ (if (0 <? ledTicks st) && (ledTicks st <=? Z.of_nat k) then [HIGH] else []) /\
  ledTicks (Nat.iter k processLED st) = Z.max 0 (ledTicks st - Z.of_nat k).
Proof.
  induction k as [|k IH]; intros st Hl.
  - cbn [Nat.iter nat_rect]. split; [|lia].
    destruct (Z.ltb_spec 0 (ledTicks st)), (Z.leb_spec (ledTicks st) (Z.of_nat 0));
      cbn [andb]; try lia; rewrite app_nil_r; reflexivity.
  - rewrite Nat.iter_succ_r.
    destruct (Z.eq_dec (ledTicks st) 0) as [E0|E0].
    + assert (E : processLED st = st).
      { unfold processLED. rewrite E0. reflexivity. }
      rewrite E. destruct (IH st Hl) as (I1 & I2). rewrite I1, I2, E0.
      split; [reflexivity | lia].
    + destruct (processLED_led st) as (P1 & P2 & _); [lia|].
      destruct (IH (processLED st)) as (I1 & I2); [lia|].
      rewrite I1, I2, P1, P2. split; [|lia].
      rewrite <- app_assoc. f_equal.
      destruct (Z.eqb_spec (ledTicks st) 1), (Z.ltb_spec 0 (ledTicks st - 1)),
        (Z.leb_spec (ledTicks st - 1) (Z.of_nat k)), (Z.ltb_spec 0 (ledTicks st)),
        (Z.leb_spec (ledTicks st) (Z.of_nat (S k))); cbn [andb app]; try lia; reflexivity.
Qed.

Section Passes.
Context `{Platform}.

Lemma sensor_addr_loop t st i :
  wf st -> sensor_addr (sensors (loop t st)) i = sensor_addr (sensors st) i.
Proof.
  intros (HN & Hl & Ht & Hc0 & Hc). unfold loop.
  destruct (processLED_frame (processSensors t st)) as (Ls & _).
  rewrite Ls. unfold SENSOR_TICKS, MAX_SENSORS in *.
  destruct (Z.eq_dec (sensorTicks st) 1) as [E1|E1].
  - destruct (Z.eq_dec (numSensors st) 0) as [E0|E0].
    + rewrite processSensors_empty by assumption. reflexivity.
    + destruct (processSensors_boundary t st) as (_ & _ & _ & _ & Bs & _); auto.
      { unfold INT_MIN, INT_MAX. lia. }
      rewrite Bs. unfold stored.
      destruct (f32_eqb t DEVICE_DISCONNECTED_C); [reflexivity|].
      apply sensor_addr_store_temperature.
  - rewrite processSensors_idle by (unfold SENSOR_TICKS; lia). reflexivity.
Qed.

Lemma sensor_addr_run ts i : forall st,
  wf st -> sensor_addr (sensors (run ts st)) i = sensor_addr (sensors st) i.
Proof.
  induction ts as [|t ts IH]; intros st Hw; [reflexivity|].
  rewrite run_cons, IH by (apply wf_loop, Hw). apply sensor_addr_loop, Hw.
Qed.

(** What a pass does to the fields of the scheduler, by kind of pass. *)
Lemma loop_idle t st :
  1 < sensorTicks st <= SENSOR_TICKS ->
  sensors (loop t st) = sensors st /\
  numSensors (loop t st) = numSensors st /\
  currentSensor (loop t st) = currentSensor st /\
  reads (trace (loop t st)) = reads (trace st) /\
  sensorTicks (loop t st) = sensorTicks st - 1.
Proof.
  intros Hr. unfold loop.
  destruct (processLED_frame (processSensors t st)) as (Ls & Ln & Lc & Lt & LR & _).
  rewrite Ls, Ln, Lc, Lt, LR, processSensors_idle by exact Hr.
  repeat split.
Qed.

Lemma loop_empty t st :
  sensorTicks st = 1 -> numSensors st = 0 ->
  sensors (loop t st) = sensors st /\
  numSensors (loop t st) = 0 /\
  currentSensor (loop t st) = currentSensor st /\
  reads (trace (loop t st)) = reads (trace st) /\
  sensorTicks (loop t st) = SENSOR_TICKS.
Proof.
  intros Ht Hn. unfold loop.
  destruct (processLED_frame (processSensors t st)) as (Ls & Ln & Lc & Lt & LR & _).
  rewrite Ls, Ln, Lc, Lt, LR, processSensors_empty by assumption.
  cbn [sensors numSensors currentSensor sensorTicks trace emit ledOn set_ledTicks
       set_sensorTicks].
  rewrite !reads_snoc, !app_nil_r. repeat split. exact Hn.
Qed.

(** X2.  Whatever the driver answers and however long the sketch runs, the
    scheduler stays within its arrays: the cursor designates a slot of
    [sensors] and is below the sensor count (or 0 when there is none),
    the countdown is between 1 and [SENSOR_TICKS], and the sensor count and
    the addresses are those found at discovery. *)
Theorem scheduler_stays_in_bounds (devices : list (list Z)) (ts : list float32) :
  let st0 := initSensors devices boot in
  let st := run ts st0 in
  numSensors st = numSensors st0 /\
  0 <= numSensors st <= MAX_SENSORS /\
  0 <= currentSensor st /\
  (currentSensor st < numSensors st \/ (numSensors st = 0 /\ currentSensor st = 0)) /\
  is_Some (sensor_at (sensors st) (currentSensor st)) /\
  1 <= sensorTicks st <= SENSOR_TICKS /\
  forall i, sensor_addr (sensors st) i = sensor_addr (sensors st0) i.
Proof.
  cbv zeta.
  pose proof (wf_initSensors devices) as Hw0.
  pose proof (wf_run ts _ Hw0) as (HN & Hl & Ht & Hc0 & Hc).
  split; [apply numSensors_run, Hw0|].
  split; [exact HN|]. split; [exact Hc0|]. split; [exact Hc|].
  split; [|split; [exact Ht | intros i; apply sensor_addr_run, Hw0]].
  unfold sensor_at.
  destruct (Z.leb_spec 0 (currentSensor (run ts (initSensors devices boot)))); [|lia].
  apply lookup_lt_is_Some_2. unfold MAX_SENSORS in *. lia.
Qed.

(** X3.  Between two ends of cycle nothing is asked of the driver and nothing
    is stored: during the passes that do not exhaust the countdown, the
    store, the cursor and the list of reads stay as they are. *)
Theorem no_read_before_the_countdown_ends (st : state) (ts : list float32) :
  1 <= sensorTicks st <= SENSOR_TICKS ->
  Z.of_nat (length ts) < sensorTicks st ->
  sensors (run ts st) = sensors st /\
  currentSensor (run ts st) = currentSensor st /\
  reads (trace (run ts st)) = reads (trace st) /\
  sensorTicks (run ts st) = sensorTicks st - Z.of_nat (length ts).
Proof.
  revert st. induction ts as [|t ts IH]; intros st Hr Hlen.
  - cbn [run fold_left length]. repeat split. cbn. lia.
  - rewrite run_cons. cbn [length] in Hlen |- *.
    destruct (loop_idle t st) as (L1 & _ & L3 & L4 & L5); [lia|].
    destruct (IH (loop t st)) as (I1 & I2 & I3 & I4); [lia | lia |].
    rewrite I1, I2, I3, I4, L1, L3, L4, L5. repeat split. lia.
Qed.

(** X4.  On a bus without sensors the scheduler never asks the driver for a
    temperature and never touches the store or the cursor, however many
    passes it makes. *)
Theorem empty_bus_is_never_read (st : state) (ts : list float32) :
  numSensors st = 0 ->
  1 <= sensorTicks st <= SENSOR_TICKS ->
  sensors (run ts st) = sensors st /\
  currentSensor (run ts st) = currentSensor st /\
  reads (trace (run ts st)) = reads (trace st) /\
  numSensors (run ts st) = 0.
Proof.
  revert st. induction ts as [|t ts IH]; intros st Hn Hr; [repeat split; assumption|].
  rewrite run_cons.
  assert (Hstep : sensors (loop t st) = sensors st /\
                  numSensors (loop t st) = 0 /\
                  currentSensor (loop t st) = currentSensor st /\
                  reads (trace (loop t st)) = reads (trace st) /\
                  1 <= sensorTicks (loop t st) <= SENSOR_TICKS).
  { destruct (Z.eq_dec (sensorTicks st) 1) as [E1|E1].
    - destruct (loop_empty t st E1 Hn) as (A & B & C & D & E).
      rewrite E. unfold SENSOR_TICKS. repeat split; try assumption; lia.
    - destruct (loop_idle t st) as (A & B & C & D & E); [lia|].
      rewrite E, B. repeat split; try assumption; try lia. }
  destruct Hstep as (S1 & S2 & S3 & S4 & S5).
  destruct (IH (loop t st) S2 S5) as (I1 & I2 & I3 & I4).
  rewrite I1, I2, I3, I4, S1, S3, S4. repeat split.
Qed.


(** X5.  A temperature is the only thing the end of a cycle can store: whatever
    the driver answers, the pass leaves the size of the store, every
    address and the temperature of every other sensor as they were. *)
Theorem end_of_cycle_touches_one_temperature (st : state) (t : float32) (j : Z) :
  sensorTicks st = 1 ->
  0 <= currentSensor st < numSensors st ->
  numSensors st <= MAX_SENSORS ->
  j <> currentSensor st ->
  let st' := processSensors t st in
  length (sensors st') = length (sensors st) /\
  map addr (sensors st') = map addr (sensors st) /\
  sensor_at (sensors st') j = sensor_at (sensors st) j /\
  numSensors st' = numSensors st.
Proof.
  intros Ht Hc Hmax Hj. cbv zeta.
  destruct (processSensors_boundary t st) as (_ & Bn & _ & _ & Bs & _).
  { exact Ht. } { lia. } { unfold INT_MIN, INT_MAX, MAX_SENSORS in *. lia. }
  rewrite Bs, Bn. unfold stored.
  destruct (f32_eqb t DEVICE_DISCONNECTED_C); [repeat split|].
  split; [apply length_store_temperature|].
  split; [apply addr_store_temperature|].
  split; [|reflexivity].
  apply sensor_at_store_temperature_ne. congruence.
Qed.

(** X6.  The LED timer: after [ledOn ticks], the LED has been switched on, and
    [k] calls of [processLED] switch it off exactly once, at call number
    [ticks], when [ticks] is positive; with [ticks = 0] they never do. *)
Theorem led_is_switched_off_after_its_ticks (ticks : Z) (k : nat) (st : state) :
  0 <= ticks <= INT_MAX ->
  led_writes (trace (Nat.iter k processLED (ledOn ticks st))) =
  led_writes (trace st) ++ [LOW]
    ++ (if (0 <? ticks) && (ticks <=? Z.of_nat k) then [HIGH] else []).
Proof.
  intros Hticks.
  destruct (iter_processLED k (ledOn ticks st)) as (Hw & _).
  { cbn. exact Hticks. }
  rewrite Hw. cbn [ledOn emit set_ledTicks trace ledTicks].
  rewrite led_writes_snoc, <- app_assoc. reflexivity.
Qed.

(** X7.  In the sketch's loop the LED is switched on in the pass that ends a
    cycle and off in the pass after it. *)
Theorem led_flashes_at_each_end_of_cycle (st : state) (t1 t2 : float32) :
  sensorTicks st = 1 ->
  0 <= currentSensor st ->
  currentSensor st < numSensors st \/ numSensors st = 0 ->
  numSensors st <= MAX_SENSORS ->
  led_writes (trace (loop t1 st)) = led_writes (trace st) ++ [LOW] /\
  led_writes (trace (loop t2 (loop t1 st))) = led_writes (trace st) ++ [LOW; HIGH] /\
  ledTicks (loop t2 (loop t1 st)) = 0.
Proof.
  intros Ht Hc0 Hc Hmax.
  assert (Hb : ledTicks (processSensors t1 st) = LED_TICKS /\
               led_writes (trace (processSensors t1 st)) = led_writes (trace st) ++ [LOW] /\
               sensorTicks (processSensors t1 st) = SENSOR_TICKS).
  { destruct (Z.eq_dec (numSensors st) 0) as [E0|E0].
    - rewrite processSensors_empty by assumption.
      cbn [sensors numSensors currentSensor sensorTicks trace emit ledOn set_ledTicks
           set_sensorTicks ledTicks].
      rewrite !led_writes_snoc, !app_nil_r. repeat split.
    - destruct (processSensors_boundary t1 st) as (Bt & _ & Bl & _ & _ & _ & Bw & _).
      { exact Ht. } { exact E0. } { unfold INT_MIN, INT_MAX, MAX_SENSORS in *. lia. }
      repeat split; assumption. }
  destruct Hb as (B1 & B2 & B3).
  destruct (processLED_led (processSensors t1 st)) as (P1 & P2 & P3).
  { rewrite B1. unfold LED_TICKS, INT_MAX. lia. }
  rewrite B1 in P1, P2. rewrite B2 in P2. rewrite B3 in P3.
  unfold LED_TICKS in P1, P2. change (2 =? 1) with false in P2. rewrite app_nil_r in P2.
  unfold loop.
  set (s1 := processLED (processSensors t1 st)) in *.
  split; [exact P2|].
  assert (E : processSensors t2 s1 = set_sensorTicks (sensorTicks s1 - 1) s1).
  { apply processSensors_idle. rewrite P3. unfold SENSOR_TICKS. lia. }
  rewrite E.
  destruct (processLED_led (set_sensorTicks (sensorTicks s1 - 1) s1)) as (Q1 & Q2 & _).
  { cbn [ledTicks set_sensorTicks]. rewrite P1. unfold INT_MAX. lia. }
  cbn [ledTicks set_sensorTicks trace] in Q1, Q2.
  rewrite P1 in Q1, Q2. rewrite P2 in Q2.
  change (2 - 1 =? 1) with true in Q2.
  split; [rewrite Q2, <- app_assoc; reflexivity | exact Q1].
Qed.

End Passes.

Lemma no_read_before_the_countdown_ends_witness :
  let st := initSensors [[40;1;2;3;4;5;6;7]] boot in
  let ts := replicate 49 t_20_0625 in
  (1 <= sensorTicks st <= SENSOR_TICKS /\ Z.of_nat (length ts) < sensorTicks st) /\
  sensors (run ts st) = sensors st.
Proof.
  intros st ts.
  assert (H : 1 <= sensorTicks st <= SENSOR_TICKS /\ Z.of_nat (length ts) < sensorTicks st)
    by (split; [split|]; evaluate).
  split; [exact H|].
  exact (proj1 (no_read_before_the_countdown_ends st ts (proj1 H) (proj2 H))).
Defined.

Lemma empty_bus_is_never_read_witness :
  let st := initSensors [] boot in
  let ts := replicate 120 t_20_0625 in
  (numSensors st = 0 /\ 1 <= sensorTicks st <= SENSOR_TICKS) /\
  reads (trace (run ts st)) = reads (trace st).
Proof.
  intros st ts.
  assert (H : numSensors st = 0 /\ 1 <= sensorTicks st <= SENSOR_TICKS)
    by (split; [|split]; evaluate).
  split; [exact H|].
  exact (proj1 (proj2 (proj2 (empty_bus_is_never_read st ts (proj1 H) (proj2 H))))).
Defined.

Lemma end_of_cycle_touches_one_temperature_witness :
  let st := set_sensorTicks 1 (initSensors [[40;1;2;3;4;5;6;7]; [40;9;9;9;9;9;9;9]] boot) in
  (sensorTicks st = 1 /\ 0 <= currentSensor st < numSensors st /\
   numSensors st <= MAX_SENSORS /\ 1 <> currentSensor st) /\
  sensor_at (sensors (processSensors t_20_0625 st)) 1 = sensor_at (sensors st) 1.
Proof.
  intros st.
  assert (H : sensorTicks st = 1 /\ 0 <= currentSensor st < numSensors st /\
              numSensors st <= MAX_SENSORS /\ 1 <> currentSensor st)
    by (split; [|split; [split|split]]; evaluate).
  split; [exact H|].
  destruct H as (H1 & H2 & H3 & H4).
  exact (proj1 (proj2 (proj2 (end_of_cycle_touches_one_temperature
                                st t_20_0625 1 H1 H2 H3 H4)))).
Defined.

Lemma led_is_switched_off_after_its_ticks_witness :
  0 <= LED_TICKS <= INT_MAX /\
  led_writes (trace (Nat.iter 5 processLED (ledOn LED_TICKS boot))) = [LOW; HIGH].
Proof.
  assert (H : 0 <= LED_TICKS <= INT_MAX) by (split; evaluate).
  split; [exact H|].
  exact (led_is_switched_off_after_its_ticks LED_TICKS 5 boot H).
Defined.

Lemma led_flashes_at_each_end_of_cycle_witness :
  let st := set_sensorTicks 1 (initSensors [[40;1;2;3;4;5;6;7]] boot) in
  (sensorTicks st = 1 /\ 0 <= currentSensor st /\
   (currentSensor st < numSensors st \/ numSensors st = 0) /\
   numSensors st <= MAX_SENSORS) /\
  ledTicks (loop t_20_0625 (loop t_20_0625 st)) = 0.
Proof.
  intros st.
  assert (H : sensorTicks st = 1 /\ 0 <= currentSensor st /\
              (currentSensor st < numSensors st \/ numSensors st = 0) /\
              numSensors st <= MAX_SENSORS)
    by (split; [|split; [|split; [left|]]]; evaluate).
  split; [exact H|].
  destruct H as (H1 & H2 & H3 & H4).
  exact (proj2 (proj2 (led_flashes_at_each_end_of_cycle st t_20_0625 t_20_0625 H1 H2 H3 H4))).
Defined.

End SchedulerMore.

(** ** The management object tree *)

Module MibFacts.
Import Sensors Mib.

Lemma sensor_count_cases N :
  0 <= N <= MAX_SENSORS -> N = 0 \/ N = 1 \/ N = 2 \/ N = 3 \/ N = 4.
Proof. unfold MAX_SENSORS. lia. Qed.

(** X8.  The tree [initMibTree] builds for [N] discovered sensors has the three
    system nodes and two nodes per sensor, under identifiers that are all
    different. *)
Theorem mib_tree_size_and_distinct_identifiers (N : Z) :
  0 <= N <= MAX_SENSORS ->
  length (initMibTree N) = Z.to_nat (3 + 2 * N) /\
  NoDup (map oid (initMibTree N)).
Proof.
  intros HN.
  destruct (sensor_count_cases N HN) as [-> | [-> | [-> | [-> | ->]]]];
    (split; [reflexivity|]);
    apply (bool_decide_unpack _); vm_compute; reflexivity.
Qed.

(** X9.  A node for the address (column 2) or the temperature (column 3) of
    sensor [k] is in the tree exactly when [k] is one of the discovered
    sensors, numbered from 1. *)
Theorem sensor_nodes_are_those_of_discovered_sensors (N col k : Z) :
  0 <= N <= MAX_SENSORS ->
  col = 2 \/ col = 3 ->
  (SENSOR_OID ++ [col; k]) ∈ map oid (initMibTree N) <-> 1 <= k <= N.
Proof.
  intros HN Hcol.
  destruct (sensor_count_cases N HN) as [-> | [-> | [-> | [-> | ->]]]];
    destruct Hcol as [-> | ->];
    vm_compute initMibTree; cbn [map oid]; unfold SENSOR_OID, P; cbn [app];
    rewrite ?elem_of_cons, elem_of_nil;
    (split;
     [ intros Hin; repeat (destruct Hin as [Hin | Hin]; [try discriminate Hin|]);
       try contradiction; try (injection Hin as Hin; lia)
     | intros Hk;
       assert (Hk' : k = 1 \/ k = 2 \/ k = 3 \/ k = 4) by lia;
       destruct Hk' as [-> | [-> | [-> | ->]]]; try lia; tauto ]).
Qed.

(** X10.  No accessor of the tree reads outside [sensors]: for every node that
    [initMibTree] registers with an accessor, the accessor succeeds on a
    store of [MAX_SENSORS] slots. *)
Theorem registered_accessors_stay_in_the_store
    (N millis : Z) (l : list sensorType) (n : MIB) (cb : callback) :
  0 <= N <= MAX_SENSORS ->
  length l = Z.to_nat MAX_SENSORS ->
  n ∈ initMibTree N ->
  get n = Some cb ->
  is_Some (invoke cb millis l n).
Proof.
  intros HN Hl Hin Hcb. unfold MAX_SENSORS in *.
  destruct l as [|s1 [|s2 [|s3 [|s4 [|]]]]]; try discriminate Hl.
  destruct (sensor_count_cases N HN) as [-> | [-> | [-> | [-> | ->]]]];
    vm_compute initMibTree in Hin;
    rewrite ?elem_of_cons, elem_of_nil in Hin;
    repeat (destruct Hin as [Hin | Hin]; [subst n|]); try contradiction;
    cbn [get] in Hcb; try discriminate Hcb; injection Hcb as <-;
    cbv beta iota zeta delta [invoke getUptime getTemperature getSensorAddress oid_last oid];
    try (eexists; reflexivity);
    vm_compute last; cbv beta iota zeta;
    match goal with
    | |- context [int_wrap ?a] =>
        let v := eval vm_compute in (int_wrap a) in change (int_wrap a) with v
    end;
    vm_compute sensor_at; eexists; reflexivity.
Qed.

(** X11.  The address node of a discovered sensor [k] resolves, as an octet
    string, to the address field of slot [k - 1] of [sensors]. *)
Theorem address_oid_points_at_the_slot_of_its_sensor
    (N k millis : Z) (l : list sensorType) :
  1 <= k <= N -> N <= MAX_SENSORS ->
  length l = Z.to_nat MAX_SENSORS ->
  resolve (initMibTree N) millis l (SENSOR_OID ++ [2; k])
  = Found OCTET_STRING (u_octetstring (buf_sensor_addr (k - 1))).
Proof.
  unfold MAX_SENSORS. intros Hk HN Hl.
  destruct l as [|s1 [|s2 [|s3 [|s4 [|]]]]]; try discriminate Hl.
  assert (HN' : N = 1 \/ N = 2 \/ N = 3 \/ N = 4) by lia.
  assert (Hk' : k = 1 \/ k = 2 \/ k = 3 \/ k = 4) by lia.
  destruct HN' as [-> | [-> | [-> | ->]]];
    destruct Hk' as [-> | [-> | [-> | ->]]]; try lia;
    unfold resolve; vm_compute List.find;
    cbv beta iota zeta delta [get invoke getSensorAddress oid_last oid set_u type u];
    vm_compute last; cbv beta iota zeta;
    match goal with
    | |- context [int_wrap ?a] =>
        let v := eval vm_compute in (int_wrap a) in change (int_wrap a) with v
    end;
    vm_compute sensor_at; reflexivity.
Qed.

Lemma mib_tree_size_and_distinct_identifiers_witness :
  0 <= 2 <= MAX_SENSORS /\ length (initMibTree 2) = Z.to_nat (3 + 2 * 2).
Proof.
  assert (H : 0 <= 2 <= MAX_SENSORS) by (split; evaluate).
  split; [exact H|].
  exact (proj1 (mib_tree_size_and_distinct_identifiers 2 H)).
Defined.

Lemma sensor_nodes_are_those_of_discovered_sensors_witness :
  (0 <= 2 <= MAX_SENSORS /\ (3 = 2 \/ 3 = 3)) /\
  ((SENSOR_OID ++ [3; 5]) ∈ map oid (initMibTree 2) <-> 1 <= 5 <= 2).
Proof.
  assert (H : 0 <= 2 <= MAX_SENSORS /\ (3 = 2 \/ 3 = 3))
    by (split; [split; evaluate | right; reflexivity]).
  split; [exact H|].
  exact (sensor_nodes_are_those_of_discovered_sensors 2 3 5 (proj1 H) (proj2 H)).
Defined.

Lemma registered_accessors_stay_in_the_store_witness :
  let n := mkMIB (SENSOR_OID ++ [3; 2]) INTEGER RD_ONLY (u_intval 0) 0
                 (Some cb_getTemperature) in
  (0 <= 2 <= MAX_SENSORS /\ length (sensors boot) = Z.to_nat MAX_SENSORS /\
   n ∈ initMibTree 2 /\ get n = Some cb_getTemperature) /\
  is_Some (invoke cb_getTemperature 0 (sensors boot) n).
Proof.
  intros n.
  assert (H : 0 <= 2 <= MAX_SENSORS /\ length (sensors boot) = Z.to_nat MAX_SENSORS /\
              n ∈ initMibTree 2 /\ get n = Some cb_getTemperature).
  { split; [split; evaluate|]. split; [reflexivity|]. split; [|reflexivity].
    vm_compute initMibTree. apply list_elem_of_In. cbn. tauto. }
  split; [exact H|].
  destruct H as (H1 & H2 & H3 & H4).
  exact (registered_accessors_stay_in_the_store 2 0 (sensors boot) n cb_getTemperature
           H1 H2 H3 H4).
Defined.

Lemma address_oid_points_at_the_slot_of_its_sensor_witness :
  (1 <= 2 <= 2 /\ 2 <= MAX_SENSORS /\ length (sensors boot) = Z.to_nat MAX_SENSORS) /\
  resolve (initMibTree 2) 0 (sensors boot) (SENSOR_OID ++ [2; 2])
  = Found OCTET_STRING (u_octetstring (buf_sensor_addr (2 - 1))).
Proof.
  assert (H : 1 <= 2 <= 2 /\ 2 <= MAX_SENSORS /\
              length (sensors boot) = Z.to_nat MAX_SENSORS)
    by (split; [split; evaluate | split; evaluate]).
  split; [exact H|].
  destruct H as (H1 & H2 & H3).
  exact (address_oid_points_at_the_slot_of_its_sensor 2 2 0 (sensors boot) H1 H2 H3).
Defined.

End MibFacts.

(** ** Loading and saving the configuration *)

Module ConfigMore.
Import Config Scenarios ConfigFacts Invariants.

Lemma stored_image_bytes f : bytes_ok (stored_image f).
Proof.
  unfold bytes_ok, stored_image.
  change (map (fun a => f a mod 256)) with (fmap (M:=list) (fun a => f a mod 256)).
  apply Forall_fmap, Forall_true. intros a. cbn. apply Z.mod_pos_bound. lia.
Qed.

(** X12.  Whatever the flash holds, after [getConfig] the record in memory is
    well formed (200 bytes, its size field 200, its marker set, every
    element a byte) and the EEPROM buffer has the size of the record. *)
Theorem getConfig_leaves_a_well_formed_record (f : Z -> Z) :
  record_ok (eepromData (getConfig (Config.boot f))) /\
  bytes_ok (eepromData (getConfig (Config.boot f))) /\
  length (data (EEPROM (getConfig (Config.boot f)))) = Z.to_nat sizeof_eepromData.
Proof.
  unfold getConfig. rewrite getConfig_loop_copies.
  cbn [eepromData].
  destruct ((peek_int (stored_image f) off_eepromSize =? sizeof_eepromData)
            && (peek_ushort (stored_image f) off_dataValid =? EEPROM_VALID)) eqn:Hv;
    cbn [eepromData EEPROM println set_eepromData EEPROM_begin data];
    (split; [|split; [|rewrite length_map, length_seqZ; reflexivity]]).
  - apply andb_prop in Hv as [Hs Hm]. apply Z.eqb_eq in Hs, Hm.
    split; [apply stored_image_length|]. split; assumption.
  - apply stored_image_bytes.
  - destruct (defaults_in_any_record (stored_image f) (stored_image_length f))
      as (_ & _ & _ & H4 & H5 & H6).
    split; [exact H6|]. split; assumption.
  - pose proof (stored_image_bytes f) as Hb. pose proof (stored_image_length f) as Hlen.
    revert Hb Hlen. generalize (stored_image f). intros d Hb Hlen.
    unfold strcpy, poke_int, poke_ushort, poke, bytes_ok in *.
    repeat (apply Forall_inserts; [|apply (bool_decide_unpack _); vm_compute; reflexivity]).
    exact Hb.
Qed.

(** The image [EEPROM.begin] finds after [saveConfig] is the record that
    was saved. *)
Lemma stored_image_after_save (st : Config.state) :
  record_ok (eepromData st) -> bytes_ok (eepromData st) ->
  length (data (EEPROM st)) = Z.to_nat sizeof_eepromData ->
  stored_image (flash (EEPROM (Config.saveConfig st))) = eepromData st.
Proof.
  intros (Hlen & Hsz & _) Hb Hdata.
  destruct (saveConfig_persists st) as (_ & _ & _ & Hf).
  { rewrite Hsz, Hlen. reflexivity. } { rewrite Hdata, Hlen. reflexivity. }
  unfold stored_image. apply list_eq. intros i.
  change (map (fun a => flash (EEPROM (Config.saveConfig st)) a mod 256))
    with (fmap (M:=list) (fun a => flash (EEPROM (Config.saveConfig st)) a mod 256)).
  rewrite list_lookup_fmap.
  destruct (Nat.lt_ge_cases i (length (eepromData st))) as [Hlt|Hge].
  - rewrite lookup_seqZ_lt by (rewrite Hlen in Hlt; unfold sizeof_eepromData in *; lia).
    cbn [fmap option_fmap option_map]. rewrite Z.add_0_l, Hf by lia.
    rewrite Nat2Z.id. unfold byte_at.
    destruct (lookup_lt_is_Some_2 (eepromData st) i Hlt) as (x & Hx). rewrite Hx.
    cbn [default]. f_equal. apply Z.mod_small.
    unfold bytes_ok in Hb. rewrite Forall_lookup in Hb. exact (Hb i x Hx).
  - rewrite lookup_seqZ_ge by (rewrite Hlen in Hge; unfold sizeof_eepromData in *; lia).
    rewrite lookup_ge_None_2 by lia. reflexivity.
Qed.

(** X13.  Round trip through the flash: a well-formed record that [saveConfig]
    has saved is what [getConfig] loads after a restart, byte for byte,
    and so are its three strings. *)
Theorem save_then_load_round_trip (st : Config.state) :
  record_ok (eepromData st) -> bytes_ok (eepromData st) ->
  length (data (EEPROM st)) = Z.to_nat sizeof_eepromData ->
  let st' := getConfig (Config.boot (flash (EEPROM (Config.saveConfig st)))) in
  eepromData st' = eepromData st /\
  staSSID st' = staSSID st /\ staPSK st' = staPSK st /\ roCommunity st' = roCommunity st.
Proof.
  intros Hok Hb Hdata. cbv zeta.
  assert (E : eepromData (getConfig (Config.boot (flash (EEPROM (Config.saveConfig st)))))
              = eepromData st).
  { unfold getConfig. rewrite getConfig_loop_copies. cbn [eepromData].
    rewrite (stored_image_after_save st Hok Hb Hdata).
    destruct Hok as (_ & Hsz & Hm). rewrite Hsz, Hm, !Z.eqb_refl. reflexivity. }
  unfold staSSID, staPSK, roCommunity. rewrite E. repeat split.
Qed.

Lemma save_then_load_round_trip_witness :
  let st := getConfig (Config.boot (fun _ => 255)) in
  (record_ok (eepromData st) /\ bytes_ok (eepromData st) /\
   length (data (EEPROM st)) = Z.to_nat sizeof_eepromData) /\
  staSSID (getConfig (Config.boot (flash (EEPROM (Config.saveConfig st))))) = staSSID st.
Proof.
  intros st.
  assert (H : record_ok (eepromData st) /\ bytes_ok (eepromData st) /\
              length (data (EEPROM st)) = Z.to_nat sizeof_eepromData).
  { subst st. split; [evaluate|]. split; [|evaluate].
    unfold bytes_ok. apply (bool_decide_unpack _). vm_compute. reflexivity. }
  split; [exact H|].
  destruct H as (H1 & H2 & H3).
  exact (proj1 (proj2 (save_then_load_round_trip st H1 H2 H3))).
Defined.

End ConfigMore.

(** ** The two readers *)

Module HttpMore.
Import Config Http Scenarios ConfigFacts HttpFacts HttpNotions.


Lemma cstr_strcpy_start bytes : forall buf,
  Forall (fun c => c <> 0) bytes ->
  (length bytes < length buf)%nat ->
  cstr (Config.strcpy 0 bytes buf) = bytes.
Proof.
  unfold Config.strcpy, poke.
  induction bytes as [|c bytes IH]; intros buf Hnz Hlen.
  - destruct buf as [|b buf]; [cbn in Hlen; lia|]. reflexivity.
  - destruct buf as [|b buf]; [cbn in Hlen; lia|].
    apply Forall_cons in Hnz as [Hc Hnz].
    cbn [app list_inserts]. rewrite list_inserts_cons. cbn [insert list_insert cstr].
    destruct (Z.eqb_spec c 0); [contradiction|].
    f_equal. apply IH; [exact Hnz | cbn in Hlen; lia].
Qed.









(** X17.  The idle timeout of the status server survives the wrap of the
    32-bit millisecond clock: when [elapsed] milliseconds have passed
    since the last byte, an idle pass hangs up exactly if [elapsed] exceeds
    2000, wherever in its range the clock stands. *)
Theorem status_timeout_counts_elapsed_time
    (sens : Sensors.state) (ms elapsed : Z) (urlPtr : nat) (rest : list poll) (st : state) :
  0 <= ms < 2 ^ 32 ->
  0 <= elapsed < 2 ^ 32 ->
  httpStatusGetRequest_loop sens (mkPoll (ms + elapsed) None :: rest) urlPtr ms st
  = if elapsed >? 2000 then idle_timeout st
    else httpStatusGetRequest_loop sens rest urlPtr ms st.
Proof.
  intros Hms He.
  cbn [httpStatusGetRequest_loop incoming millis].
  assert (E : ulong_wrap (ulong_wrap (ms + elapsed) - ms) = elapsed).
  { unfold ulong_wrap. rewrite Zminus_mod_idemp_l.
    replace (ms + elapsed - ms) with elapsed by lia. apply Z.mod_small. exact He. }
  rewrite E. destruct (elapsed >? 2000); reflexivity.
Qed.



Lemma status_timeout_counts_elapsed_time_witness :
  (0 <= 4294967000 < 2 ^ 32 /\ 0 <= 2001 < 2 ^ 32) /\
  httpStatusGetRequest_loop Sensors.boot [mkPoll (4294967000 + 2001) None] 0 4294967000
    (boot (fun _ => 0))
  = idle_timeout (boot (fun _ => 0)).
Proof.
  assert (H : 0 <= 4294967000 < 2 ^ 32 /\ 0 <= 2001 < 2 ^ 32) by (split; evaluate).
  split; [exact H|].
  destruct H as (H1 & H2).
  exact (status_timeout_counts_elapsed_time Sensors.boot 4294967000 2001 0 []
           (boot (fun _ => 0)) H1 H2).
Defined.

End HttpMore.

(** ** What every run of a server preserves *)

Module HttpInv.
Import Config Http Scenarios ConfigFacts HttpFacts Invariants HttpNotions.

Section Preservation.
Variable R : state -> state -> Prop.
Hypothesis R_config : forall st st', config st' = config st -> R st st'.
Hypothesis R_trans : forall a b c, R a b -> R b c -> R a c.

Lemma preserves_ret {A} (a : A) : preserves R (ret a).
Proof. intros st x st' [= _ <-]. apply R_config. reflexivity. Qed.

Lemma preserves_fail {A} f : preserves R (@fail A f).
Proof. intros st x st' E. discriminate E. Qed.

Lemma preserves_gets {A} (f : state -> A) : preserves R (gets f).
Proof. intros st x st' [= _ <-]. apply R_config. reflexivity. Qed.

Lemma preserves_bind {A B} (m : M A) (k : A -> M B) :
  preserves R m -> (forall a, preserves R (k a)) -> preserves R (bind m k).
Proof.
  intros Hm Hk st b st' E. unfold bind in E.
  destruct (m st) as [[a st1]|f] eqn:Em; [|discriminate E].
  eapply R_trans; [eapply Hm, Em | eapply Hk, E].
Qed.

Lemma preserves_emit e : preserves R (emit e).
Proof. intros st x st' [= _ <-]. apply R_config. reflexivity. Qed.

Lemma preserves_set_httpRequest b : preserves R (set_httpRequest b).
Proof. intros st x st' [= _ <-]. apply R_config. reflexivity. Qed.

Lemma preserves_set_httpParams p : preserves R (set_httpParams p).
Proof. intros st x st' [= _ <-]. apply R_config. reflexivity. Qed.

Lemma preserves_set_strtok_last p : preserves R (set_strtok_last p).
Proof. intros st x st' [= _ <-]. apply R_config. reflexivity. Qed.

(** Steps through a monadic term, case by case. *)
Ltac step :=
  repeat first
    [ apply preserves_ret | apply preserves_fail | apply preserves_gets
    | apply preserves_emit | apply preserves_set_httpRequest
    | apply preserves_set_httpParams | apply preserves_set_strtok_last
    | assumption
    | apply preserves_bind; [|intros ?]
    | match goal with
      | |- preserves _ (match ?x with _ => _ end) => destruct x
      | |- preserves _ (if ?x then _ else _) => destruct x
      end ].

Lemma preserves_strtok s delim : preserves R (strtok s delim).
Proof. unfold strtok. step. Qed.

Lemma preserves_deref callee p : preserves R (deref callee p).
Proof. unfold deref. step. Qed.

Lemma preserves_strcmp_eq name p : preserves R (strcmp_eq name p).
Proof. unfold strcmp_eq. apply preserves_bind; [apply preserves_deref | intros; step]. Qed.


Lemma preserves_store_httpRequest urlPtr c : preserves R (store_httpRequest urlPtr c).
Proof. unfold store_httpRequest. step. Qed.

Lemma preserves_httpNotFound : preserves R httpNotFound.
Proof. unfold httpNotFound. step. Qed.



Lemma preserves_idle_timeout : preserves R idle_timeout.
Proof. unfold idle_timeout. step. Qed.

Lemma preserves_end_of_line serve urlPtr :
  (forall url, preserves R (serve url)) -> preserves R (end_of_line serve urlPtr).
Proof.
  intros Hs. unfold end_of_line.
  apply preserves_bind; [apply preserves_store_httpRequest | intros _].
  step. apply Hs.
Qed.

Lemma preserves_httpStatusPage_rows rows : preserves R (httpStatusPage_rows rows).
Proof. induction rows; cbn [httpStatusPage_rows]; unfold httpStatusPage_row; step. Qed.

Lemma preserves_httpStatusPage sens url : preserves R (httpStatusPage sens url).
Proof.
  unfold httpStatusPage.
  apply preserves_bind; [apply preserves_strtok | intros filename].
  apply preserves_bind; [apply preserves_strcmp_eq | intros same].
  destruct (negb same); [apply preserves_httpNotFound|].
  step. apply preserves_httpStatusPage_rows.
Qed.

Lemma preserves_httpStatusGetRequest_loop sens script :
  forall urlPtr ms, preserves R (httpStatusGetRequest_loop sens script urlPtr ms).
Proof.
  induction script as [|p script IH]; intros urlPtr ms; cbn [httpStatusGetRequest_loop].
  - step.
  - destruct (incoming p) as [c|].
    + destruct (c =? 10).
      * apply preserves_end_of_line. intros url. apply preserves_httpStatusPage.
      * destruct (negb (c =? 13)); [|apply IH].
        apply preserves_bind; [apply preserves_store_httpRequest | intros _; apply IH].
    + destruct (_ >? 2000); [apply preserves_idle_timeout | apply IH].
Qed.

Lemma preserves_httpStatusGetRequest sens entry script :
  preserves R (httpStatusGetRequest sens entry script).
Proof.
  unfold httpStatusGetRequest.
  apply preserves_bind; [step | intros _].
  apply preserves_bind; [apply preserves_httpStatusGetRequest_loop | intros _; step].
Qed.

(** The configuration server, given that its three ways of writing the
    record preserve [R]. *)
Hypothesis R_strcpy_field :
  forall field off src,
    off = off_staSSID \/ off = off_staPSK \/ off = off_roCommunity ->
    preserves R (strcpy_field field off src).
Hypothesis R_reset : preserves R httpResetConfiguration.
Hypothesis R_save : preserves R saveConfig.









End Preservation.

End HttpInv.

Module ServerInvariants.
Import Config Http Scenarios ConfigFacts HttpFacts Invariants HttpNotions HttpInv.

Lemma byte_at_inserts_lt off k d i :
  (i < off)%nat -> byte_at (list_inserts off k d) i = byte_at d i.
Proof. intros Hi. unfold byte_at. rewrite list_lookup_inserts_lt by exact Hi. reflexivity. Qed.

Lemma byte_at_inserts_ge off k d i :
  (off + length k <= i)%nat -> byte_at (list_inserts off k d) i = byte_at d i.
Proof. intros Hi. unfold byte_at. rewrite list_lookup_inserts_ge by exact Hi. reflexivity. Qed.







(** X18.  The status server is read-only: whatever a client sends, a run that
    ends without fault leaves the configuration record and the EEPROM as
    they were. *)
Theorem status_server_never_changes_the_configuration
    (sens : Sensors.state) (entry : Z) (script : list poll) (st st' : state) (r : unit) :
  httpStatusGetRequest sens entry script st = Ok (r, st') ->
  config st' = config st.
Proof.
  apply (preserves_httpStatusGetRequest same_config).
  - intros ? ? H. exact H.
  - unfold same_config. intros a b c H1 H2. congruence.
Qed.

Lemma status_server_never_changes_the_configuration_witness :
  exists st',
    httpStatusGetRequest Sensors.boot 0
      (arriving 7 (bytes_of_string "GET /") ++ [mkPoll 8 (Some 10)]) (configured (fun _ => 0))
    = Ok (tt, st') /\
    config st' = config (configured (fun _ => 0)).
Proof.
  eexists. split; [vm_compute; reflexivity|].
  apply (status_server_never_changes_the_configuration Sensors.boot 0
           (arriving 7 (bytes_of_string "GET /") ++ [mkPoll 8 (Some 10)])
           (configured (fun _ => 0)) _ tt).
  vm_compute. reflexivity.
Defined.


End ServerInvariants.

(** ** The handlers of the configuration mode *)

Module HandlerFacts.
Import Config Http Scenarios ConfigFacts HttpFacts Invariants HttpNotions HttpMore
       ServerInvariants.

Lemma cstr_nonzero m : Forall (fun c => c <> 0) (cstr m).
Proof.
  induction m as [|c m IH]; cbn [cstr]; [constructor|].
  destruct (Z.eqb_spec c 0); [constructor|]. constructor; assumption.
Qed.

Lemma cstr_at_strcpy v : forall off d,
  Forall (fun c => c <> 0) v ->
  (off + length v < length d)%nat ->
  cstr_at (Config.strcpy off v d) off = v.
Proof.
  intros off. induction off as [|off IH]; intros d Hnz Hlen.
  - unfold cstr_at. rewrite drop_0. apply cstr_strcpy_start; [exact Hnz | lia].
  - destruct d as [|x d]; [cbn in Hlen; lia|].
    unfold cstr_at, Config.strcpy, poke in *. rewrite list_inserts_cons.
    cbn [drop]. apply IH; [exact Hnz | cbn in Hlen; lia].
Qed.

Lemma byte_at_strcpy_outside off v d i :
  (i < off \/ off + length v < i)%nat ->
  byte_at (Config.strcpy off v d) i = byte_at d i.
Proof.
  intros Hi. unfold Config.strcpy, poke.
  destruct Hi as [Hi|Hi].
  - apply byte_at_inserts_lt. exact Hi.
  - apply byte_at_inserts_ge. rewrite length_app. cbn [length]. lia.
Qed.

Lemma cstr_at_strcpy_after off off' v d :
  (off + length v < off')%nat ->
  cstr_at (Config.strcpy off v d) off' = cstr_at d off'.
Proof.
  intros H. unfold cstr_at, Config.strcpy, poke. f_equal.
  apply list_eq. intros i. rewrite !lookup_drop.
  apply list_lookup_inserts_ge. rewrite length_app. cbn [length]. lia.
Qed.

Lemma cstr_inserts_after k : forall m j,
  (length (cstr m) < j)%nat -> cstr (list_inserts j k m) = cstr m.
Proof.
  intros m. induction m as [|c m IH]; intros j Hj.
  - assert (E : list_inserts j k [] = []).
    { apply length_zero_iff_nil. rewrite length_inserts. reflexivity. }
    rewrite E. reflexivity.
  - destruct j as [|j]; [lia|]. rewrite list_inserts_cons. cbn [cstr] in *.
    destruct (Z.eqb_spec c 0); [reflexivity|].
    f_equal. apply IH. cbn [length] in Hj. lia.
Qed.

(** A copy behind the end of a string does not change the string. *)
Lemma cstr_at_strcpy_before v : forall off' off d,
  (off' + length (cstr_at d off') < off)%nat ->
  cstr_at (Config.strcpy off v d) off' = cstr_at d off'.
Proof.
  unfold cstr_at, Config.strcpy, poke.
  intros off'. induction off' as [|off' IH]; intros off d H.
  - rewrite !drop_0 in *. apply cstr_inserts_after. lia.
  - destruct off as [|off]; [lia|].
    destruct d as [|x d].
    + assert (E : list_inserts (S off) (v ++ [0]) [] = []).
      { apply length_zero_iff_nil. rewrite length_inserts. reflexivity. }
      rewrite E. reflexivity.
    + rewrite list_inserts_cons. cbn [drop] in *. apply IH. lia.
Qed.

(** What [httpParseParam] prints before it searches the table. *)
Lemma httpParseParam_prologue paramName paramValue st :
  exists tr,
    httpParseParam paramName paramValue st
    = httpParseParam_from httpParamHandlers paramName paramValue (logging tr st).
Proof.
  unfold httpParseParam, logging.
  destruct paramName, paramValue; eexists;
    cbv beta iota delta [bind emit modify print_ptr gets ret
                         config httpRequest httpParams strtok_last trace];
    rewrite <- ?app_assoc; reflexivity.
Qed.

Lemma strcmp_eq_run name n st :
  strcmp_eq name (Some n) st
  = Ok (bool_decide (bytes_of_string name = cstr_at (httpRequest st) n), st).
Proof. reflexivity. Qed.

Lemma strcpy_field_run field off v st :
  (length (cstr_at (httpRequest st) v) < 64)%nat ->
  strcpy_field field off (Some v) st
  = Ok (tt, mkState (Config.set_eepromData
                       (Config.strcpy off (cstr_at (httpRequest st) v)
                          (eepromData (config st))) (config st))
                    (httpRequest st) (httpParams st) (strtok_last st) (trace st)).
Proof.
  intros Hlen. unfold strcpy_field, deref, bind, gets, ret. cbn beta iota.
  destruct (Nat.leb_spec 64 (length (cstr_at (httpRequest st) v))); [lia|].
  reflexivity.
Qed.

(** X20.  A parameter of the form whose name is known and whose value fits is
    copied into the field of that name: the field then reads as the value,
    no byte outside the copy changes, and neither the EEPROM nor the request
    buffer is touched. *)
Theorem known_parameter_sets_its_field
    (name : string) (off n v : nat) (st : state) :
  (name, off) ∈ fields ->
  cstr_at (httpRequest st) n = bytes_of_string name ->
  (length (cstr_at (httpRequest st) v) < 64)%nat ->
  length (eepromData (config st)) = Z.to_nat sizeof_eepromData ->
  exists st',
    httpParseParam (Some n) (Some v) st = Ok (tt, st') /\
    cstr_at (eepromData (config st')) off = cstr_at (httpRequest st) v /\
    (forall i, (i < off \/ off + length (cstr_at (httpRequest st) v) < i)%nat ->
       byte_at (eepromData (config st')) i = byte_at (eepromData (config st)) i) /\
    EEPROM (config st') = EEPROM (config st) /\
    httpRequest st' = httpRequest st.
Proof.
  intros Hin Hname Hv Hlen.
  destruct (httpParseParam_prologue (Some n) (Some v) st) as (tr & ->).
  assert (Hrun : exists field,
             httpParseParam_from httpParamHandlers (Some n) (Some v) (logging tr st)
             = strcpy_field field off (Some v) (logging tr st)).
  { apply list_elem_of_In in Hin. cbn [fields In] in Hin.
    cbn [httpParseParam_from httpParamHandlers]. unfold bind.
    destruct Hin as [[= <- <-]|[[= <- <-]|[[= <- <-]|[]]]];
      repeat (rewrite strcmp_eq_run; cbn [logging httpRequest]; rewrite Hname;
              first [ rewrite bool_decide_eq_true_2 by reflexivity
                    | rewrite bool_decide_eq_false_2
                        by (vm_compute; intros E; discriminate E) ]);
      eexists; reflexivity. }
  destruct Hrun as (field & ->). rewrite strcpy_field_run by exact Hv.
  eexists. split; [reflexivity|].
  cbn [config httpRequest logging eepromData set_eepromData EEPROM].
  assert (Hoff : (off + 63 < 200)%nat).
  { apply list_elem_of_In in Hin. cbn [fields In] in Hin.
    destruct Hin as [[= <- <-]|[[= <- <-]|[[= <- <-]|[]]]]; vm_compute; lia. }
  split; [|split; [|split; reflexivity]].
  - apply cstr_at_strcpy; [apply cstr_nonzero|].
    rewrite Hlen. change (Z.to_nat sizeof_eepromData) with 200%nat. lia.
  - intros i Hi. apply byte_at_strcpy_outside. exact Hi.
Qed.

(** X21.  A parameter whose name is none of the three is rejected: the sketch
    logs [Bad parameter] and changes neither the configuration nor the
    request buffer, whether or not the parameter has a value. *)
Theorem unknown_parameter_is_rejected (n : nat) (v : ptr) (st : state) :
  (forall name off, (name, off) ∈ fields ->
     cstr_at (httpRequest st) n <> bytes_of_string name) ->
  exists st',
    httpParseParam (Some n) v st = Ok (tt, st') /\
    config st' = config st /\
    httpRequest st' = httpRequest st /\
    last (trace st') = Some (Serial_text "Bad parameter").
Proof.
  intros Hno.
  destruct (httpParseParam_prologue (Some n) v st) as (tr & ->).
  cbn [httpParseParam_from httpParamHandlers]. unfold bind.
  rewrite strcmp_eq_run. cbn [logging httpRequest].
  rewrite bool_decide_eq_false_2
    by (intros E; apply (Hno "ssid"%string off_staSSID);
        [apply list_elem_of_In; cbn; tauto | symmetry; exact E]).
  rewrite strcmp_eq_run. cbn [httpRequest].
  rewrite bool_decide_eq_false_2
    by (intros E; apply (Hno "password"%string off_staPSK);
        [apply list_elem_of_In; cbn; tauto | symmetry; exact E]).
  rewrite strcmp_eq_run. cbn [httpRequest].
  rewrite bool_decide_eq_false_2
    by (intros E; apply (Hno "community"%string off_roCommunity);
        [apply list_elem_of_In; cbn; tauto | symmetry; exact E]).
  eexists. split; [reflexivity|].
  cbn [config httpRequest trace]. repeat split.
  apply last_snoc.
Qed.

(** X22.  A save request that brings no parameter makes [strcmp] read through a
    null pointer: with the first parameter slot empty and no token pending,
    [httpSaveConfiguration] does not come back, and nothing is saved. *)
Theorem save_without_parameters_dereferences_null (st : state) :
  httpParams st !! 1%nat = Some None ->
  strtok_last st = None ->
  httpSaveConfiguration st = Fault (NullPointer "strcmp").
Proof.
  intros Hp Hl. destruct st as [cfg buf params last tr].
  cbn [httpParams strtok_last] in Hp, Hl. subst last.
  unfold httpSaveConfiguration, httpHeader, httpSaveConfiguration_param.
  cbv beta iota delta [bind emit modify gets ret
                       config httpRequest httpParams strtok_last trace].
  rewrite Hp. reflexivity.
Qed.

(** X23.  [/reset.html] loads the three defaults into the record in memory and
    nothing else: the size field and the marker stay, and the EEPROM is not
    written, so the former strings come back with the next restart unless a
    save follows. *)
Theorem reset_loads_defaults_in_memory_only (st : state) :
  length (eepromData (config st)) = Z.to_nat sizeof_eepromData ->
  exists st',
    httpResetConfiguration st = Ok (tt, st') /\
    staSSID (config st') = DEFAULT_SSID /\
    staPSK (config st') = DEFAULT_PSK /\
    roCommunity (config st') = RO_COMMUNITY /\
    peek_int (eepromData (config st')) off_eepromSize
      = peek_int (eepromData (config st)) off_eepromSize /\
    peek_ushort (eepromData (config st')) off_dataValid
      = peek_ushort (eepromData (config st)) off_dataValid /\
    EEPROM (config st') = EEPROM (config st).
Proof.
  intros Hlen. change (Z.to_nat sizeof_eepromData) with 200%nat in Hlen.
  destruct st as [cfg buf params last tr]. cbn [config] in *.
  eexists. split.
  { unfold httpResetConfiguration, httpHeader, httpFooter.
    cbv beta iota zeta delta [bind emit modify gets set_config
                              config httpRequest httpParams strtok_last trace].
    reflexivity. }
  cbn [config eepromData set_eepromData EEPROM httpRequest httpParams strtok_last trace].
  unfold staSSID, staPSK, roCommunity.
  cbn [config eepromData set_eepromData EEPROM].
  set (d := eepromData cfg) in *.
  assert (N1 : Forall (fun c => c <> 0) DEFAULT_SSID)
    by (apply (bool_decide_unpack _); vm_compute; reflexivity).
  assert (N2 : Forall (fun c => c <> 0) DEFAULT_PSK)
    by (apply (bool_decide_unpack _); vm_compute; reflexivity).
  assert (N3 : Forall (fun c => c <> 0) RO_COMMUNITY)
    by (apply (bool_decide_unpack _); vm_compute; reflexivity).
  assert (L1 : length DEFAULT_SSID = 15%nat) by reflexivity.
  assert (L2 : length DEFAULT_PSK = 10%nat) by reflexivity.
  assert (L3 : length RO_COMMUNITY = 6%nat) by reflexivity.
  assert (E1 : cstr_at (Config.strcpy off_staSSID DEFAULT_SSID d) off_staSSID = DEFAULT_SSID).
  { apply cstr_at_strcpy; [exact N1|]. rewrite L1, Hlen. vm_compute; lia. }
  assert (E2 : cstr_at (Config.strcpy off_staPSK DEFAULT_PSK
                          (Config.strcpy off_staSSID DEFAULT_SSID d)) off_staPSK
               = DEFAULT_PSK).
  { apply cstr_at_strcpy; [exact N2|].
    unfold Config.strcpy, poke. rewrite L2, length_inserts, Hlen. vm_compute; lia. }
  split; [|split; [|split]].
  - assert (E1' : cstr_at (Config.strcpy off_staPSK DEFAULT_PSK
                             (Config.strcpy off_staSSID DEFAULT_SSID d)) off_staSSID
                  = DEFAULT_SSID).
    { rewrite cstr_at_strcpy_before; [exact E1 | rewrite E1, L1; vm_compute; lia]. }
    rewrite cstr_at_strcpy_before; [exact E1' | rewrite E1', L1; vm_compute; lia].
  - rewrite cstr_at_strcpy_before; [exact E2 | rewrite E2, L2; vm_compute; lia].
  - apply cstr_at_strcpy; [exact N3|].
    unfold Config.strcpy, poke. rewrite L3, !length_inserts, Hlen. vm_compute; lia.
  - unfold peek_int, peek_ushort, off_eepromSize, off_dataValid.
    rewrite !byte_at_strcpy_outside by (rewrite ?L1, ?L2, ?L3; vm_compute; lia).
    repeat split.
Qed.
Lemma known_parameter_sets_its_field_witness :
  let st := holding_line (bytes_of_string "password=Secret") (configured (fun _ => 0)) in
  let st := with_httpRequest (<[8%nat := 0]> (httpRequest st)) st in
  (("password"%string, off_staPSK) ∈ fields /\
   cstr_at (httpRequest st) 0 = bytes_of_string "password" /\
   (length (cstr_at (httpRequest st) 9) < 64)%nat /\
   length (eepromData (config st)) = Z.to_nat sizeof_eepromData) /\
  exists st',
    httpParseParam (Some 0%nat) (Some 9%nat) st = Ok (tt, st') /\
    staPSK (config st') = bytes_of_string "Secret".
Proof.
  intros st0 st.
  assert (H : ("password"%string, off_staPSK) ∈ fields /\
              cstr_at (httpRequest st) 0 = bytes_of_string "password" /\
              (length (cstr_at (httpRequest st) 9) < 64)%nat /\
              length (eepromData (config st)) = Z.to_nat sizeof_eepromData).
  { split; [apply list_elem_of_In; cbn; tauto|].
    split; [reflexivity|]. split; [vm_compute; lia | reflexivity]. }
  split; [exact H|].
  destruct H as (H1 & H2 & H3 & H4).
  destruct (known_parameter_sets_its_field "password" off_staPSK 0 9 st H1 H2 H3 H4)
    as (st' & E & F & _).
  exists st'. split; [exact E|]. exact F.
Defined.

Lemma unknown_parameter_is_rejected_witness :
  let st := holding_line (bytes_of_string "colour") (configured (fun _ => 0)) in
  (forall name off, (name, off) ∈ fields ->
     cstr_at (httpRequest st) 0 <> bytes_of_string name) /\
  exists st',
    httpParseParam (Some 0%nat) None st = Ok (tt, st') /\ config st' = config st.
Proof.
  intros st.
  assert (H : forall name off, (name, off) ∈ fields ->
                cstr_at (httpRequest st) 0 <> bytes_of_string name).
  { intros name off Hin. apply list_elem_of_In in Hin. cbn [fields In] in Hin.
    destruct Hin as [[= <- <-]|[[= <- <-]|[[= <- <-]|[]]]];
      vm_compute; intros E; discriminate E. }
  split; [exact H|].
  destruct (unknown_parameter_is_rejected 0 None st H) as (st' & E & F & _).
  exists st'. split; [exact E | exact F].
Defined.

Lemma save_without_parameters_dereferences_null_witness :
  (httpParams (configured (fun _ => 0)) !! 1%nat = Some None /\
   strtok_last (configured (fun _ => 0)) = None) /\
  httpSaveConfiguration (configured (fun _ => 0)) = Fault (NullPointer "strcmp").
Proof.
  assert (H : httpParams (configured (fun _ => 0)) !! 1%nat = Some None /\
              strtok_last (configured (fun _ => 0)) = None) by (split; reflexivity).
  split; [exact H|].
  destruct H as (H1 & H2).
  exact (save_without_parameters_dereferences_null (configured (fun _ => 0)) H1 H2).
Defined.

Lemma reset_loads_defaults_in_memory_only_witness :
  let st := mkState (with_strings (bytes_of_string "MyNet") (bytes_of_string "Secret")
                       (bytes_of_string "private") (Config.getConfig (Config.boot (fun _ => 0))))
                    (replicate sizeof_httpRequest 0) (replicate sizeof_httpParams None) None [] in
  length (eepromData (config st)) = Z.to_nat sizeof_eepromData /\
  exists st',
    httpResetConfiguration st = Ok (tt, st') /\
    staSSID (config st') = DEFAULT_SSID.
Proof.
  intros st.
  assert (H : length (eepromData (config st)) = Z.to_nat sizeof_eepromData) by reflexivity.
  split; [exact H|].
  destruct (reset_loads_defaults_in_memory_only st H) as (st' & E & F & _).
  exists st'. split; [exact E | exact F].
Defined.

End HandlerFacts.
